(** * shopfloor-ai-assistant: intent classifier and safety guardrails

    A shallow embedding of [src/safety_guardrails.py] and
    [src/intent_classifier.py], and the properties of the specification
    that hold (or fail) on it.

    Modelling conventions.
    - A Python [str] is a [string] whose characters are the code points
      below 256 (Latin-1).  On that range [str.lower], [str.split],
      [str.isdigit] and the substring test [in] are modelled exactly.
    - A Python [float] is a binary64 [float] of the kernel; the integer
      literal [1] that the source mixes into float arithmetic is the
      float [1].
    - A [dict] whose iteration order matters is an association list in
      insertion order; the others are [gmap]s.
    - An operation that can raise returns a [result]. *)

From Stdlib Require Import Floats.PrimFloat Numbers.Cyclic.Int63.Uint63.
From Stdlib Require Import Ascii String List Bool Arith Lia.
From stdpp Require Import gmap strings list.
Import ListNotations.

Local Open Scope bool_scope.

(* ===================================================================== *)
(** * Python text primitives *)
(* ===================================================================== *)

Module Py.

(** Line feed, written [\n] in the source. *)
Definition nl : string := String "010"%char EmptyString.

(** [c.lower()] for one code point below 256: the letters A-Z and the
    Latin-1 capitals U+00C0-U+00DE (without the multiplication sign
    U+00D7) move up by 32, every other code point is kept. *)
Definition lower_char (c : ascii) : ascii :=
  let n := nat_of_ascii c in
  if ((65 <=? n) && (n <=? 90))
     || ((192 <=? n) && (n <=? 222) && negb (n =? 215))
  then ascii_of_nat (n + 32)
  else c.

(** [s.lower()] *)
Fixpoint lower (s : string) : string :=
  match s with
  | EmptyString => EmptyString
  | String c s' => String (lower_char c) (lower s')
  end.

(** [s.startswith(k)] *)
Fixpoint startswith (s k : string) {struct k} : bool :=
  match k, s with
  | EmptyString, _ => true
  | String _ _, EmptyString => false
  | String a k', String b s' => Ascii.eqb a b && startswith s' k'
  end.

(** [k in s] on strings: [k] occurs in [s] at some position. *)
Fixpoint str_in (k s : string) : bool :=
  startswith s k
  || match s with
     | EmptyString => false
     | String _ s' => str_in k s'
     end.

(** [c.isspace()], which is also the separator test of [str.split()]. *)
Definition isspace (c : ascii) : bool :=
  let n := nat_of_ascii c in
  ((9 <=? n) && (n <=? 13)) || ((28 <=? n) && (n <=? 32))
  || (n =? 133) || (n =? 160).

(** [c.isdigit()]: 0-9 and the superscripts U+00B2, U+00B3, U+00B9. *)
Definition isdigit (c : ascii) : bool :=
  let n := nat_of_ascii c in
  ((48 <=? n) && (n <=? 57)) || (n =? 178) || (n =? 179) || (n =? 185).

(** [any(p(c) for c in s)] *)
Fixpoint any_char (p : ascii -> bool) (s : string) : bool :=
  match s with
  | EmptyString => false
  | String c s' => p c || any_char p s'
  end.

(** The scanning loop of [s.split()]: [cur] is the token being read,
    if any; a separator closes it, the end of the string too. *)
Fixpoint split_from (cur : option string) (s : string) : list string :=
  match s with
  | EmptyString =>
      match cur with Some w => [w] | None => [] end
  | String c s' =>
      if isspace c then
        match cur with
        | Some w => w :: split_from None s'
        | None => split_from None s'
        end
      else
        let w := match cur with Some w => w | None => EmptyString end in
        split_from (Some (w +:+ String c EmptyString)) s'
  end.

(** [s.split()] with no argument: the maximal runs of non-space
    characters, in order. *)
Definition split (s : string) : list string := split_from None s.

(** Truth value of a string: the empty string is false. *)
Definition str_truthy (s : string) : bool :=
  match s with EmptyString => false | String _ _ => true end.

(** Exceptions the modelled operations can raise. *)
Inductive exn : Type :=
| KeyError
| IndexError
| ValueError
| TypeError
| ZeroDivisionError.

Inductive result (A : Type) : Type :=
| Ok (a : A)
| Raise (e : exn).
Arguments Ok {A} a.
Arguments Raise {A} e.

Definition bind {A B : Type} (m : result A) (k : A -> result B) : result B :=
  match m with
  | Ok a => k a
  | Raise e => Raise e
  end.

(** [for x in xs: ... return r]: the body returns [Some r] to leave the
    function at [x], [None] to go on with the next element. *)
Fixpoint for_return {A R : Type} (xs : list A) (body : A -> option R)
  : option R :=
  match xs with
  | [] => None
  | x :: xs' =>
      match body x with
      | Some r => Some r
      | None => for_return xs' body
      end
  end.

Notation "'let*' x ':=' m 'in' k" := (bind m (fun x => k))
  (at level 10, x name, m at level 100, k at level 200).

(** [for x in xs: body], the body updating a state and possibly raising. *)
Fixpoint for_each {A S : Type} (xs : list A) (body : A -> S -> result S)
  (s : S) : result S :=
  match xs with
  | [] => Ok s
  | x :: xs' =>
      match body x s with
      | Ok s' => for_each xs' body s'
      | Raise e => Raise e
      end
  end.

(** [xs[i]] on a list, for a non-negative index. *)
Definition getitem {A : Type} (xs : list A) (i : nat) : result A :=
  match xs !! i with
  | Some x => Ok x
  | None => Raise IndexError
  end.

(** [enumerate(xs)], counting from [i]. *)
Fixpoint enumerate_from {A : Type} (i : nat) (xs : list A) : list (nat * A) :=
  match xs with
  | [] => []
  | x :: xs' => (i, x) :: enumerate_from (S i) xs'
  end.

Definition enumerate {A : Type} (xs : list A) : list (nat * A) :=
  enumerate_from 0 xs.

(** ** Dictionaries in insertion order *)

Section Dict.
Context {K V : Type} `{EqDecision K}.

(** [d.get(k)] *)
Fixpoint dict_get (d : list (K * V)) (k : K) : option V :=
  match d with
  | [] => None
  | (k', v) :: d' => if decide (k' = k) then Some v else dict_get d' k
  end.

(** [d[k] = v]: an existing key keeps its place, a new one goes last. *)
Fixpoint dict_set (d : list (K * V)) (k : K) (v : V) : list (K * V) :=
  match d with
  | [] => [(k, v)]
  | (k', v') :: d' =>
      if decide (k' = k) then (k, v) :: d' else (k', v') :: dict_set d' k v
  end.

(** [d[k]] *)
Definition dict_item (d : list (K * V)) (k : K) : result V :=
  match dict_get d k with
  | Some v => Ok v
  | None => Raise KeyError
  end.

(** Iterating [d], and [d.values()]. *)
Definition dict_keys (d : list (K * V)) : list K := map fst d.
Definition dict_values (d : list (K * V)) : list V := map snd d.
End Dict.

(** ** Floats *)

(** [a > b] as [max] applies it to the values of a key function; a key
    value of [None] (from [dict.get]) cannot be ordered. *)
Definition key_gt (a b : option float) : result bool :=
  match a, b with
  | Some x, Some y => Ok (PrimFloat.ltb y x)
  | _, _ => Raise TypeError
  end.

(** The loop of [max(items, key=key)]: a later item replaces the current
    one only when its key value is strictly greater. *)
Fixpoint max_from {K : Type} (key : K -> option float)
  (maxitem : K) (maxval : option float) (items : list K) : result K :=
  match items with
  | [] => Ok maxitem
  | item :: rest =>
      let val := key item in
      let* greater := key_gt val maxval in
      if greater then max_from key item val rest
      else max_from key maxitem maxval rest
  end.

(** [max(items, key=key)] *)
Definition max_key {K : Type} (items : list K) (key : K -> option float)
  : result K :=
  match items with
  | [] => Raise ValueError
  | item :: rest => max_from key item (key item) rest
  end.

(** [max(a, b)] and [min(a, b)] on two numbers: the first argument is
    kept unless the second is strictly better. *)
Definition max2 (a b : float) : float := if PrimFloat.ltb a b then b else a.
Definition min2 (a b : float) : float := if PrimFloat.ltb b a then b else a.

(** [sum(xs)], starting from 0. *)
Definition sum (xs : list float) : float :=
  fold_left PrimFloat.add xs 0%float.

(** [a / b] *)
Definition truediv (a b : float) : result float :=
  if PrimFloat.eqb b 0%float then Raise ZeroDivisionError
  else Ok (PrimFloat.div a b).

End Py.


(* ===================================================================== *)
(** * safety_guardrails.py *)
(* ===================================================================== *)

Module SafetyGuardrails.
Import Py.

Inductive SafetyLevel : Type :=
| ALLOWED
| REQUIRES_CONFIRMATION
| FORBIDDEN.

Definition forbidden_keywords : list string :=
  [ "bypass"; "disable"; "remove"; "ignore"; "override";
    "safety"; "interlock"; "guard"; "sensor"; "alarm" ].

Definition confirmation_keywords : list string :=
  [ "emergency"; "stop"; "shutdown"; "power off"; "restart" ].

Definition safety_standards : gmap string string :=
  list_to_map
    [ ("lockout_tagout", "OSHA 1910.147 - Lockout/Tagout");
      ("guards", "OSHA 1910.212 - General Requirements for Safety");
      ("ppe", "OSHA 1910 Subpart I - Personal Protective Equipment");
      ("emergency", "ANSI Z535.1 - Safety Color Code") ].

(** A value together with the warnings sent to the logger on the way. *)
Definition Logged (A : Type) : Type := (A * list string)%type.
Definition returned {A : Type} (m : Logged A) : A := fst m.
Definition warnings {A : Type} (m : Logged A) : list string := snd m.

Definition check_safety (query response : string)
  : Logged (SafetyLevel * option string) :=
  let response_lower := lower response in
  match
    for_return forbidden_keywords (fun keyword =>
      if str_in keyword response_lower then
        let reason := "Response contains unsafe keyword: '" +:+ keyword +:+ "'" in
        Some ((FORBIDDEN, Some reason), ["Blocked: " +:+ reason])
      else None)
  with
  | Some r => r
  | None =>
      match
        for_return confirmation_keywords (fun keyword =>
          if str_in keyword response_lower then
            let reason := "Emergency action requires human confirmation" in
            Some ((REQUIRES_CONFIRMATION, Some reason), [])
          else None)
      with
      | Some r => r
      | None => ((ALLOWED, None), [])
      end
  end.

(** [safety_topic and safety_topic in self.safety_standards], together
    with the lookup [self.safety_standards[safety_topic]] of the branch
    it guards. *)
Definition cited_standard (safety_topic : option string) : option string :=
  match safety_topic with
  | Some topic =>
      if str_truthy topic then safety_standards !! topic else None
  | None => None
  end.

Definition sanitize_response (response : string) (safety_topic : option string)
  : string :=
  match cited_standard safety_topic with
  | Some standard =>
      let disclaimer := nl +:+ nl +:+ "Safety Note: See " +:+ standard in
      response +:+ disclaimer
  | None =>
      if existsb (fun word => str_in word (lower response))
                 ["procedure"; "step"; "do"]
      then
        let disclaimer :=
          nl +:+ nl
          +:+ "Always follow established procedures and safety protocols." in
        response +:+ disclaimer
      else response
  end.

End SafetyGuardrails.

(* ===================================================================== *)
(** * intent_classifier.py *)
(* ===================================================================== *)

Module IntentClassifier.
Import Py.

Inductive ManufacturingIntent : Type :=
| SOP_LOOKUP
| PRODUCTION_STATUS
| MAINTENANCE_REQUEST
| QUALITY_CHECK
| SAFETY_QUERY
| WORK_ORDER
| PART_SEARCH
| TRAINING
| UNKNOWN.

#[global] Instance ManufacturingIntent_eq_dec : EqDecision ManufacturingIntent.
Proof. solve_decision. Defined.

(** Iterating the enumeration class gives its members in the order of
    their definition. *)
Definition ManufacturingIntent_members : list ManufacturingIntent :=
  [ SOP_LOOKUP; PRODUCTION_STATUS; MAINTENANCE_REQUEST; QUALITY_CHECK;
    SAFETY_QUERY; WORK_ORDER; PART_SEARCH; TRAINING; UNKNOWN ].

Record ClassifiedIntent : Type := {
  intent : ManufacturingIntent;
  confidence : float;
  entities : gmap string string;
  clarification_needed : bool;
  clarification_question : option string
}.

Definition intent_patterns : list (ManufacturingIntent * list string) :=
  [ (SOP_LOOKUP,
      [ "show"; "procedure"; "steps"; "how to"; "instructions";
        "changeover"; "setup"; "operation"; "guide" ]);
    (PRODUCTION_STATUS,
      [ "status"; "running"; "downtime"; "oee"; "cycle time";
        "how many"; "production"; "output"; "rate" ]);
    (MAINTENANCE_REQUEST,
      [ "maintenance"; "repair"; "broken"; "issue"; "problem";
        "bearing"; "seal"; "motor"; "help with" ]);
    (QUALITY_CHECK,
      [ "quality"; "check"; "measure"; "inspect"; "specification";
        "dimension"; "tolerance"; "defect" ]);
    (SAFETY_QUERY,
      [ "safety"; "safe"; "guard"; "danger"; "warning"; "hazard";
        "ppe"; "personal protective" ]) ].

Definition entity_patterns : list (string * list string) :=
  [ ("machine_id", ["press"; "pump"; "motor"; "compressor"; "line"]);
    ("part_number", ["part"; "component"; "product"; "item"]) ].

(** The inner loop of [_extract_entities] over [enumerate(words)]; the
    [break] leaves this loop only. *)
Fixpoint scan_words (machine_keyword : string) (words : list string)
  (pairs : list (nat * string)) (entities : gmap string string)
  : result (gmap string string) :=
  match pairs with
  | [] => Ok entities
  | (i, word) :: rest =>
      if str_in machine_keyword word && (i + 1 <? length words) then
        let* next_word := getitem words (i + 1) in
        if any_char isdigit next_word
        then Ok (<["machine_id" := next_word]> entities)
        else scan_words machine_keyword words rest entities
      else scan_words machine_keyword words rest entities
  end.

Definition _extract_entities (query : string) : result (gmap string string) :=
  let entities : gmap string string := ∅ in
  let* machine_keywords := dict_item entity_patterns "machine_id" in
  for_each machine_keywords (fun machine_keyword entities =>
    if str_in machine_keyword query then
      let words := split query in
      scan_words machine_keyword words (enumerate words) entities
    else Ok entities) entities.

(** The scoring phase of [classify]: every member starts at 0.0 and
    gains 1.0 per keyword of its pattern found in the query. *)
Definition score_intents (query_lower : string)
  : result (list (ManufacturingIntent * float)) :=
  let intent_scores :=
    fold_left (fun d intent => dict_set d intent 0%float)
              ManufacturingIntent_members [] in
  for_each intent_patterns (fun '(intent, keywords) intent_scores =>
    for_each keywords (fun keyword intent_scores =>
      if str_in keyword query_lower then
        let* score := dict_item intent_scores intent in
        Ok (dict_set intent_scores intent (PrimFloat.add score 1%float))
      else Ok intent_scores) intent_scores) intent_scores.

Definition classify (query : string) : result ClassifiedIntent :=
  let query_lower := lower query in
  let* intent_scores := score_intents query_lower in
  let* best_intent := max_key (dict_keys intent_scores) (dict_get intent_scores) in
  let* best_score := dict_item intent_scores best_intent in
  let* confidence :=
    truediv best_score (max2 (sum (dict_values intent_scores)) 1%float) in
  let* entities := _extract_entities query_lower in
  let clarification_needed :=
    PrimFloat.ltb confidence 0.5%float || (size entities =? 0) in
  let clarification_question :=
    if clarification_needed then
      if decide (best_intent = SOP_LOOKUP)
      then Some "Which machine or process?"
      else if decide (best_intent = MAINTENANCE_REQUEST)
      then Some "Which equipment needs repair?"
      else None
    else None in
  Ok {| intent := best_intent;
        confidence := min2 1%float confidence;
        entities := entities;
        clarification_needed := clarification_needed;
        clarification_question := clarification_question |}.

End IntentClassifier.

(* ===================================================================== *)
(** * Notions the properties are stated with *)
(* ===================================================================== *)

Module Notions.
Import Py IntentClassifier.

(** The float reached from 0.0 by [n] additions of 1.0, which is how the
    classifier builds a score. *)
Fixpoint F (n : nat) : float :=
  match n with
  | 0 => 0%float
  | S m => PrimFloat.add (F m) 1%float
  end.

(** How many of the [keywords] occur in [text]; a keyword counts once,
    however often it occurs. *)
Definition hits (keywords : list string) (text : string) : nat :=
  length (filter (fun k => str_in k text = true) keywords).

(** The raw score of an intent: the hits of its pattern in the
    lower-cased query, and 0 for an intent without pattern. *)
Definition raw_score (query : string) (i : ManufacturingIntent) : nat :=
  match dict_get intent_patterns i with
  | Some keywords => hits keywords (lower query)
  | None => 0
  end.

(** The sum of the raw scores over all intents. *)
Definition total_score (query : string) : nat :=
  list_sum (map (raw_score query) ManufacturingIntent_members).

(** No keyword of any intent pattern occurs in the lower-cased query. *)
Definition matches_no_trigger (query : string) : bool :=
  forallb (fun '(_, keywords) =>
             forallb (fun k => negb (str_in k (lower query))) keywords)
          intent_patterns.

(** The intent has an entry in [intent_patterns]. *)
Definition has_pattern (i : ManufacturingIntent) : bool :=
  match dict_get intent_patterns i with Some _ => true | None => false end.

(** [r] is the first element of [items] on which [c] is greatest:
    everything before it is strictly smaller, nothing after it is
    greater. *)
Definition first_maximum {K : Type} (c : K -> nat) (items : list K) (r : K)
  : Prop :=
  exists pre post,
    items = pre ++ r :: post
    /\ Forall (fun x => c x < c r) pre
    /\ Forall (fun x => c x <= c r) post.

(** The question attached to an intent when clarification is needed. *)
Definition question_for (i : ManufacturingIntent) : option string :=
  match i with
  | SOP_LOOKUP => Some "Which machine or process?"
  | MAINTENANCE_REQUEST => Some "Which equipment needs repair?"
  | _ => None
  end.

(** The trigger words of the "machine_id" kind. *)
Definition machine_triggers : list string :=
  match dict_get entity_patterns "machine_id" with
  | Some keywords => keywords
  | None => []
  end.

(** Token [i] of [words] holds the trigger and token [i + 1] exists and
    holds a digit. *)
Definition candidate_at (trigger : string) (words : list string) (i : nat)
  : Prop :=
  exists word next_word,
    words !! i = Some word /\ words !! (i + 1) = Some next_word
    /\ str_in trigger word = true /\ any_char isdigit next_word = true.

(** The trigger yields [value] on [query]: it occurs in the query, and
    [value] is the token after the first token that holds the trigger and
    is followed by a token with a digit. *)
Definition yields (trigger query value : string) : Prop :=
  str_in trigger query = true
  /\ exists i,
       candidate_at trigger (split query) i
       /\ split query !! (i + 1) = Some value
       /\ forall j, j < i -> ~ candidate_at trigger (split query) j.

(** Some keyword of the list occurs in the text. *)
Definition occurs (keywords : list string) (text : string) : Prop :=
  exists k, In k keywords /\ str_in k text = true.

(** The level [check_safety] returns. *)
Definition safety_level (query response : string)
  : SafetyGuardrails.SafetyLevel :=
  fst (SafetyGuardrails.returned (SafetyGuardrails.check_safety query response)).

End Notions.

(* ===================================================================== *)
(** * Facts about the text primitives and the loops *)
(* ===================================================================== *)

Module PyFacts.
Import Py.

Lemma append_nil_l (t : string) : "" +:+ t = t.
Proof. reflexivity. Qed.

Lemma append_cons (c : ascii) (s t : string) :
  String c s +:+ t = String c (s +:+ t).
Proof. reflexivity. Qed.

Lemma append_empty_r (s : string) : s +:+ "" = s.
Proof.
  induction s as [|c s IH]; [reflexivity |].
  now rewrite append_cons, IH.
Qed.

Lemma append_assoc (a b c : string) : (a +:+ b) +:+ c = a +:+ (b +:+ c).
Proof.
  induction a as [|x a IH]; [reflexivity |].
  now rewrite !append_cons, IH.
Qed.

Lemma lower_app (a b : string) : lower (a +:+ b) = lower a +:+ lower b.
Proof.
  induction a as [|x a IH]; [reflexivity |].
  rewrite append_cons. simpl. now rewrite append_cons, IH.
Qed.

Lemma startswith_true (s k : string) :
  startswith s k = true <-> exists t, s = k +:+ t.
Proof.
  revert s; induction k as [|a k IH]; intros s; simpl.
  - split; [intros _; now exists s | reflexivity].
  - destruct s as [|b s].
    + split; [discriminate | intros [t Ht]; discriminate].
    + rewrite andb_true_iff, Ascii.eqb_eq, IH. split.
      * intros [-> [t ->]]. now exists t.
      * intros [t Ht]. rewrite append_cons in Ht. injection Ht as -> ->.
        split; [reflexivity | now exists t].
Qed.

(** [k in s] holds exactly when [s] is [a + k + b] for some [a], [b]. *)
Lemma str_in_true (k s : string) :
  str_in k s = true <-> exists a b, s = a +:+ k +:+ b.
Proof.
  induction s as [|c s IH].
  - simpl. rewrite orb_false_r, startswith_true. split.
    + intros [t Ht]. now exists "", t.
    + intros [[|x a] [b Hb]]; [now exists b | discriminate].
  - cbn [str_in]. rewrite orb_true_iff, startswith_true, IH. split.
    + intros [[t Ht] | [a [b Hb]]].
      * now exists "", t.
      * exists (String c a), b. now rewrite append_cons, Hb.
    + intros [[|x a] [b Hb]].
      * left. now exists b.
      * right. rewrite append_cons in Hb. injection Hb as -> ->. now exists a, b.
Qed.

Lemma str_in_app_r (k a b : string) :
  str_in k b = true -> str_in k (a +:+ b) = true.
Proof.
  rewrite !str_in_true. intros [x [y ->]].
  exists (a +:+ x), y. now rewrite append_assoc.
Qed.

Lemma str_in_app_l (k a b : string) :
  str_in k a = true -> str_in k (a +:+ b) = true.
Proof.
  rewrite !str_in_true. intros [x [y ->]].
  exists x, (y +:+ b). now rewrite !append_assoc.
Qed.

Lemma append_cancel_empty (a d : string) : a +:+ d = a -> d = "".
Proof.
  induction a as [|c a IH]; [easy |].
  rewrite append_cons. intros H. injection H as H. now apply IH.
Qed.

(** The loop with early return stops at the first element on which the
    body returns. *)
Lemma for_return_Some {A R : Type} (xs : list A) (body : A -> option R) (r : R) :
  for_return xs body = Some r <->
  exists pre x post,
    xs = pre ++ x :: post /\ Forall (fun y => body y = None) pre
    /\ body x = Some r.
Proof.
  induction xs as [|x xs IH]; simpl.
  - split; [discriminate | intros [[|? ?] [? [? [H _]]]]; discriminate].
  - destruct (body x) as [r'|] eqn:Hx.
    + split.
      * intros H. exists [], x, xs. repeat split; [constructor | congruence].
      * intros [[|y pre] [z [post [H [Hpre Hz]]]]]; simpl in H.
        -- injection H as -> ->. congruence.
        -- injection H as -> ->. inversion Hpre; congruence.
    + rewrite IH. split.
      * intros [pre [z [post [-> [Hpre Hz]]]]].
        exists (x :: pre), z, post. repeat split; [now constructor | exact Hz].
      * intros [[|y pre] [z [post [H [Hpre Hz]]]]]; simpl in H.
        -- injection H as -> ->. congruence.
        -- injection H as -> ->. inversion Hpre; subst.
           now exists pre, z, post.
Qed.

Lemma for_each_cons {A S : Type} (x : A) (xs : list A)
  (body : A -> S -> result S) (s : S) :
  for_each (x :: xs) body s
  = match body x s with
    | Ok s' => for_each xs body s'
    | Raise e => Raise e
    end.
Proof. reflexivity. Qed.

Lemma for_return_None {A R : Type} (xs : list A) (body : A -> option R) :
  for_return xs body = None <-> Forall (fun y => body y = None) xs.
Proof.
  induction xs as [|x xs IH]; simpl.
  - split; [constructor | reflexivity].
  - destruct (body x) eqn:Hx.
    + split; [discriminate | intros H; inversion H; congruence].
    + rewrite IH. split; [now constructor | intros H; now inversion H].
Qed.

End PyFacts.

(* ===================================================================== *)
(** * Properties of the safety guardrails *)
(* ===================================================================== *)

Module SafetyProofs.
Import Py PyFacts SafetyGuardrails.

Lemma body_none_forall (text : string) (R : Type) (f : string -> R)
  (keywords : list string) :
  Forall (fun k => (if str_in k text then Some (f k) else None) = None) keywords
  <-> Forall (fun k => str_in k text = false) keywords.
Proof.
  split; intros H; (eapply List.Forall_impl; [|exact H]); intros k; simpl;
    destruct (str_in k text); congruence.
Qed.

(** A response whose lower-cased text holds one of the forbidden keywords
    is refused, whatever else it holds. *)
Lemma check_safety_forbidden_if (query response keyword : string) :
  In keyword forbidden_keywords ->
  str_in keyword (lower response) = true ->
  fst (returned (check_safety query response)) = FORBIDDEN.
Proof.
  intros Hin Hk. unfold check_safety.
  destruct (for_return forbidden_keywords _) as [r|] eqn:Hscan.
  - apply for_return_Some in Hscan as (pre & k & post & _ & _ & Hbody).
    destruct (str_in k (lower response)); [|discriminate].
    injection Hbody as <-. reflexivity.
  - apply for_return_None, body_none_forall in Hscan.
    rewrite List.Forall_forall in Hscan. apply Hscan in Hin. congruence.
Qed.

(** C1. [check_safety] scans [forbidden_keywords] in their configured
    order and stops at the first one that occurs in the lower-cased
    response, returning FORBIDDEN with an explanation that quotes it; with
    no forbidden keyword it scans [confirmation_keywords] in order and, at
    the first that occurs, returns REQUIRES_CONFIRMATION with one fixed
    explanation, a text in which no confirmation keyword occurs; with
    neither it returns ALLOWED and no explanation. *)
Theorem check_safety_first_match (query response : string) :
  let text := lower response in
  let absent := fun k => str_in k text = false in
  let generic := "Emergency action requires human confirmation" in
  ((exists pre keyword post,
      forbidden_keywords = pre ++ keyword :: post
      /\ Forall absent pre
      /\ str_in keyword text = true
      /\ returned (check_safety query response)
         = (FORBIDDEN,
            Some ("Response contains unsafe keyword: '" +:+ keyword +:+ "'")))
   \/ (Forall absent forbidden_keywords
       /\ (exists pre keyword post,
             confirmation_keywords = pre ++ keyword :: post
             /\ Forall absent pre
             /\ str_in keyword text = true)
       /\ returned (check_safety query response)
          = (REQUIRES_CONFIRMATION, Some generic))
   \/ (Forall absent forbidden_keywords
       /\ Forall absent confirmation_keywords
       /\ returned (check_safety query response) = (ALLOWED, None)))
  /\ Forall (fun k => str_in k generic = false) confirmation_keywords.
Proof.
  intros text absent generic. split.
  2: { repeat constructor. }
  unfold check_safety. fold text.
  destruct (for_return forbidden_keywords _) as [r|] eqn:Hforb.
  - left.
    apply for_return_Some in Hforb as (pre & k & post & Hsplit & Hpre & Hbody).
    apply body_none_forall in Hpre.
    destruct (str_in k text) eqn:Hk; [|discriminate].
    injection Hbody as <-. exists pre, k, post. auto.
  - right. apply for_return_None, body_none_forall in Hforb.
    destruct (for_return confirmation_keywords _) as [r|] eqn:Hconf.
    + left.
      apply for_return_Some in Hconf as (pre & k & post & Hsplit & Hpre & Hbody).
      apply body_none_forall in Hpre.
      destruct (str_in k text) eqn:Hk; [|discriminate].
      injection Hbody as <-. split; [exact Hforb|]. split; [|reflexivity].
      exists pre, k, post. auto.
    + right. apply for_return_None, body_none_forall in Hconf. auto.
Qed.

(** C2. [check_safety] reads the response only: two calls that differ
    in the query alone return the same level and explanation (and log
    the same warnings). *)
Theorem check_safety_ignores_query (q1 q2 response : string) :
  returned (check_safety q1 response) = returned (check_safety q2 response)
  /\ warnings (check_safety q1 response) = warnings (check_safety q2 response).
Proof. split; reflexivity. Qed.

(** C8. [sanitize_response] returns the response followed by a suffix,
    and which suffix is decided in this order: a topic found in
    [safety_standards] gives the note citing its standard, whatever the
    response says; otherwise one of "procedure", "step", "do" in the
    lower-cased response gives the generic disclaimer; otherwise nothing
    is added. *)
Theorem sanitize_response_appends (response : string)
  (safety_topic : option string) :
  let text := lower response in
  let out := sanitize_response response safety_topic in
  let unlisted :=
    forall topic, safety_topic = Some topic -> safety_standards !! topic = None in
  (exists suffix, out = response +:+ suffix)
  /\ ((exists topic standard,
         safety_topic = Some topic
         /\ safety_standards !! topic = Some standard
         /\ out = response +:+ nl +:+ nl +:+ "Safety Note: See " +:+ standard
         /\ str_in standard out = true)
      \/ (unlisted
          /\ (str_in "procedure" text = true \/ str_in "step" text = true
              \/ str_in "do" text = true)
          /\ out = response +:+ nl +:+ nl
                   +:+ "Always follow established procedures and safety protocols.")
      \/ (unlisted
          /\ str_in "procedure" text = false /\ str_in "step" text = false
          /\ str_in "do" text = false
          /\ out = response)).
Proof.
  intros text out unlisted. subst out. unfold sanitize_response. fold text.
  destruct (cited_standard safety_topic) as [standard|] eqn:Hc.
  - split; [eexists; reflexivity|]. left.
    unfold cited_standard in Hc.
    destruct safety_topic as [topic|]; [|discriminate].
    destruct (str_truthy topic); [|discriminate].
    exists topic, standard. repeat split; try assumption.
    apply str_in_app_r, str_in_app_r, str_in_app_r, str_in_app_r.
    apply str_in_true. exists "", "". now rewrite append_empty_r.
  - assert (Hun : unlisted).
    { intros topic ->. unfold cited_standard in Hc.
      destruct topic; [reflexivity | exact Hc]. }
    cbn [existsb].
    destruct (str_in "procedure" text) eqn:H1;
      destruct (str_in "step" text) eqn:H2;
      destruct (str_in "do" text) eqn:H3; cbn [orb];
      (split; [first [eexists; reflexivity
                     | exists ""; now rewrite append_empty_r] |]);
      first [ right; left; split; [exact Hun|]; split; [|reflexivity]; tauto
            | right; right; repeat split; [exact Hun] ].
Qed.

(** C10. Whenever [sanitize_response] changes the response, that is
    whenever it appends one of its two disclaimers, [check_safety] refuses
    the result: both disclaimers hold the forbidden keyword "safety". *)
Theorem sanitize_then_check_forbidden (query response : string)
  (safety_topic : option string) :
  sanitize_response response safety_topic <> response ->
  fst (returned (check_safety query (sanitize_response response safety_topic)))
  = FORBIDDEN.
Proof.
  intros Hchanged.
  apply check_safety_forbidden_if with (keyword := "safety").
  { unfold forbidden_keywords. simpl. tauto. }
  revert Hchanged. unfold sanitize_response.
  destruct (cited_standard safety_topic) as [standard|].
  - intros _. rewrite !lower_app.
    apply str_in_app_r, str_in_app_r, str_in_app_r, str_in_app_l. reflexivity.
  - destruct (existsb _ _); [|congruence].
    intros _. rewrite lower_app. apply str_in_app_r. reflexivity.
Qed.

Lemma sanitize_then_check_forbidden_witness :
  sanitize_response "Turn off the main breaker" (Some "lockout_tagout")
    <> "Turn off the main breaker"
  /\ fst (returned (check_safety "how do I isolate the press?"
       (sanitize_response "Turn off the main breaker" (Some "lockout_tagout"))))
     = FORBIDDEN.
Proof.
  split.
  - vm_compute. intros H. discriminate H.
  - apply (sanitize_then_check_forbidden "how do I isolate the press?"
             "Turn off the main breaker" (Some "lockout_tagout")).
    vm_compute. intros H. discriminate H.
Defined.

End SafetyProofs.

(* ===================================================================== *)
(** * Floats that count *)
(* ===================================================================== *)

Module FloatFacts.
Import Py Notions.

(** Case analysis on a natural number below a bound known from a
    hypothesis: every case is a closed computation. *)
Ltac upto n k :=
  lazymatch k with
  | 0 => exfalso; lia
  | S ?k' => destruct n as [|n]; [ | upto n k']
  end.

Ltac compute_case := vm_compute; reflexivity.

Lemma F_ltb (a b : nat) :
  a <= 9 -> b <= 9 -> PrimFloat.ltb (F a) (F b) = (a <? b).
Proof.
  intros Ha Hb.
  upto a 10; upto b 10; compute_case.
Qed.

Lemma F_add (a b : nat) :
  a <= 43 -> b <= 9 -> PrimFloat.add (F a) (F b) = F (a + b).
Proof.
  intros Ha Hb.
  upto b 10; upto a 44; compute_case.
Qed.

Lemma F_sum (ns : list nat) (a : nat) :
  Forall (fun n => n <= 9) ns -> a + list_sum ns <= 43 ->
  fold_left PrimFloat.add (map F ns) (F a) = F (a + list_sum ns).
Proof.
  revert a. induction ns as [|n ns IH]; intros a Hns Hle; simpl in *.
  - now rewrite Nat.add_0_r.
  - inversion Hns; subst.
    rewrite F_add by lia. rewrite IH by (assumption || lia).
    f_equal. lia.
Qed.

(** The floored denominator [max(total, 1)]. *)
Lemma max2_floor (t : nat) : t <= 43 -> max2 (F t) 1%float = F (Nat.max t 1).
Proof. intros Ht. upto t 44; compute_case. Qed.

Lemma F_nonzero (t : nat) :
  1 <= t <= 43 -> PrimFloat.eqb (F t) 0%float = false.
Proof. intros Ht. upto t 44; first [compute_case | exfalso; lia]. Qed.

(** The quotient of two counts is below one half exactly when it is so
    as a fraction. *)
Lemma quotient_lt_half (b t : nat) :
  b <= 9 -> 1 <= t <= 43 ->
  PrimFloat.ltb (PrimFloat.div (F b) (F t)) 0.5%float = (2 * b <? t).
Proof.
  intros Hb Ht. upto b 10; upto t 44; first [compute_case | exfalso; lia].
Qed.

(** The quotient of a count by a larger count lies between 0 and 1, so
    the final [min(1.0, _)] keeps it. *)
Lemma quotient_unit (b t : nat) :
  b <= 9 -> 1 <= t <= 43 -> b <= t ->
  let c := PrimFloat.div (F b) (F t) in
  min2 1%float c = c /\ max2 0%float c = c
  /\ PrimFloat.leb 0%float c = true /\ PrimFloat.leb c 1%float = true.
Proof.
  intros Hb Ht Hbt. cbv zeta.
  upto b 10; upto t 44;
    first [exfalso; lia | repeat split; compute_case].
Qed.

Lemma quotient_zero (t : nat) :
  1 <= t <= 43 -> PrimFloat.div (F 0) (F t) = 0%float.
Proof. intros Ht. upto t 44; first [compute_case | exfalso; lia]. Qed.

End FloatFacts.

(* ===================================================================== *)
(** * Properties of the intent classifier *)
(* ===================================================================== *)

Module ClassifierProofs.
Import Py PyFacts Notions FloatFacts IntentClassifier.

(** ** Scoring *)

Lemma hits_le (keywords : list string) (text : string) :
  hits keywords text <= length keywords.
Proof. unfold hits. apply length_filter. Qed.

Lemma hits_cons (k : string) (keywords : list string) (text : string) :
  hits (k :: keywords) text
  = (if str_in k text then 1 else 0) + hits keywords text.
Proof.
  unfold hits. rewrite filter_cons.
  destruct (str_in k text); destruct (decide _); simpl; congruence.
Qed.

Section DictFacts.
Context {K V : Type} `{EqDecision K}.

Lemma dict_get_set (d : list (K * V)) (k : K) (v : V) :
  dict_get (dict_set d k v) k = Some v.
Proof.
  induction d as [|[k' v'] d IH]; simpl.
  - now rewrite decide_True.
  - destruct (decide (k' = k)); simpl.
    + now rewrite decide_True.
    + now rewrite decide_False.
Qed.

Lemma dict_set_set (d : list (K * V)) (k : K) (v w : V) :
  dict_set (dict_set d k v) k w = dict_set d k w.
Proof.
  induction d as [|[k' v'] d IH]; simpl.
  - now rewrite decide_True.
  - destruct (decide (k' = k)); simpl.
    + now rewrite decide_True.
    + rewrite decide_False by assumption. now rewrite IH.
Qed.
End DictFacts.

(** The loop over the keywords of one intent adds its hits to the
    intent's score and leaves the other scores alone. *)
Lemma score_keywords (i : ManufacturingIntent) (keywords : list string)
  (text : string) (d : list (ManufacturingIntent * float)) (n : nat) :
  for_each keywords (fun keyword intent_scores =>
      if str_in keyword text then
        let* score := dict_item intent_scores i in
        Ok (dict_set intent_scores i (PrimFloat.add score 1%float))
      else Ok intent_scores) (dict_set d i (F n))
  = Ok (dict_set d i (F (hits keywords text + n))).
Proof.
  revert n. induction keywords as [|k keywords IH]; intros n.
  - reflexivity.
  - rewrite hits_cons. cbn [for_each]. destruct (str_in k text).
    + unfold dict_item. rewrite dict_get_set. cbn [bind].
      rewrite dict_set_set. change (PrimFloat.add (F n) 1%float) with (F (S n)).
      rewrite IH. do 3 f_equal. lia.
    + apply IH.
Qed.

Lemma dict_set_same {K V : Type} `{EqDecision K} (d : list (K * V)) (k : K)
  (v : V) :
  dict_get d k = Some v -> dict_set d k v = d.
Proof.
  induction d as [|[k' v'] d IH]; simpl; [discriminate |].
  destruct (decide (k' = k)) as [->|].
  - now intros [= ->].
  - intros Hd. now rewrite IH.
Qed.

Lemma score_keywords_at (i : ManufacturingIntent) (keywords : list string)
  (text : string) (d : list (ManufacturingIntent * float)) (n : nat) :
  dict_get d i = Some (F n) ->
  for_each keywords (fun keyword intent_scores =>
      if str_in keyword text then
        let* score := dict_item intent_scores i in
        Ok (dict_set intent_scores i (PrimFloat.add score 1%float))
      else Ok intent_scores) d
  = Ok (dict_set d i (F (hits keywords text + n))).
Proof.
  intros Hd. rewrite <- (dict_set_same d i (F n) Hd) at 1.
  apply score_keywords.
Qed.

#[local] Arguments hits : simpl never.
#[local] Arguments F : simpl never.

(** After the scoring phase every member of the enumeration, in the
    order of its definition, holds its raw score as a float. *)
Lemma score_intents_counts (query : string) :
  score_intents (lower query)
  = Ok (map (fun i => (i, F (raw_score query i))) ManufacturingIntent_members).
Proof.
  unfold score_intents, intent_patterns. simpl fold_left.
  do 5 (rewrite for_each_cons; cbv beta iota;
        rewrite (score_keywords_at _ _ _ _ 0) by reflexivity;
        simpl dict_set; cbv beta iota).
  rewrite !Nat.add_0_r. reflexivity.
Qed.

(** ** Entity extraction *)

Lemma not_candidate_past_end (trigger : string) (words : list string) (j : nat) :
  length words <= j + 1 -> ~ candidate_at trigger words j.
Proof.
  intros Hlen (word & next_word & _ & Hnext & _).
  apply lookup_lt_Some in Hnext. lia.
Qed.

(** The loop over the tokens, started at token [length pre], stops at the
    first candidate from there on and records the token after it; without
    one it leaves the entities as they are.  It never indexes past the
    end. *)
Lemma scan_words_first (trigger : string) (suffix pre : list string)
  (entities : gmap string string) :
  let words := pre ++ suffix in
  let run :=
    scan_words trigger words (enumerate_from (length pre) suffix) entities in
  (exists j value,
      length pre <= j
      /\ candidate_at trigger words j
      /\ words !! (j + 1) = Some value
      /\ (forall j', length pre <= j' < j -> ~ candidate_at trigger words j')
      /\ run = Ok (<["machine_id" := value]> entities))
  \/ ((forall j, length pre <= j -> ~ candidate_at trigger words j)
      /\ run = Ok entities).
Proof.
  revert pre. induction suffix as [|word rest IH]; intros pre words run.
  - right. split; [|reflexivity].
    intros j Hj. apply not_candidate_past_end.
    subst words. rewrite length_app. simpl. lia.
  - assert (Hword : words !! length pre = Some word)
      by (subst words; now apply list_lookup_middle).
    assert (Hrest : words = (pre ++ [word]) ++ rest)
      by (subst words; now rewrite <- app_assoc).
    assert (Hlen : length (pre ++ [word]) = S (length pre))
      by (rewrite length_app; simpl; lia).
    specialize (IH (pre ++ [word])). cbv zeta in IH.
    rewrite <- Hrest, Hlen in IH.
    pose (P := fun r : result (gmap string string) =>
      (exists j value,
          length pre <= j
          /\ candidate_at trigger words j
          /\ words !! (j + 1) = Some value
          /\ (forall j', length pre <= j' < j -> ~ candidate_at trigger words j')
          /\ r = Ok (<["machine_id" := value]> entities))
      \/ ((forall j, length pre <= j -> ~ candidate_at trigger words j)
          /\ r = Ok entities)).
    change (P run).
    assert (Hskip :
      ~ candidate_at trigger words (length pre) ->
      P (scan_words trigger words (enumerate_from (S (length pre)) rest) entities)).
    { intros Hnot. unfold P.
      destruct IH as [(j & value & Hj & Hcand & Hval & Hfirst & Hres) | [Hnone Hres]].
      - left. exists j, value. repeat split; try assumption; [lia|].
        intros j' Hj'. destruct (decide (j' = length pre)) as [->|];
          [assumption | apply Hfirst; lia].
      - right. split; [|assumption].
        intros j Hj. destruct (decide (j = length pre)) as [->|];
          [assumption | apply Hnone; lia]. }
    subst run. cbn [enumerate_from scan_words]. fold words.
    destruct (str_in trigger word) eqn:Hin; cbn [andb].
    + destruct (length pre + 1 <? length words) eqn:Hlt.
      * apply Nat.ltb_lt in Hlt.
        destruct (lookup_lt_is_Some_2 words (length pre + 1) Hlt) as [next_word Hnext].
        unfold getitem. rewrite Hnext. cbn [bind].
        destruct (any_char isdigit next_word) eqn:Hdigit.
        -- left. exists (length pre), next_word. repeat split; try assumption.
           ++ lia.
           ++ exists word, next_word. auto.
           ++ intros j' Hj'. lia.
        -- apply Hskip.
           intros (w & nw & Hw & Hnw & _ & Hd). congruence.
      * apply Nat.ltb_ge in Hlt. apply Hskip.
        apply not_candidate_past_end. lia.
    + apply Hskip.
      intros (w & nw & Hw & _ & Hk & _). congruence.
Qed.

(** What one trigger does to the entities. *)
Lemma trigger_step (query trigger : string) (entities : gmap string string) :
  let run :=
    if str_in trigger query then
      scan_words trigger (split query) (enumerate (split query)) entities
    else Ok entities in
  (exists value,
      yields trigger query value
      /\ run = Ok (<["machine_id" := value]> entities))
  \/ ((forall value, ~ yields trigger query value) /\ run = Ok entities).
Proof.
  intros run. subst run. destruct (str_in trigger query) eqn:Hin.
  - destruct (scan_words_first trigger (split query) [] entities)
      as [(j & value & _ & Hcand & Hval & Hfirst & Hres) | [Hnone Hres]];
      simpl in *.
    + left. exists value. split; [|exact Hres].
      split; [exact Hin|]. exists j. repeat split; try assumption.
      intros j' Hj'. apply Hfirst. lia.
    + right. split; [|exact Hres].
      intros value (_ & j & Hcand & _). apply (Hnone j); [lia | exact Hcand].
  - right. split; [|reflexivity]. intros value [Hq _]. congruence.
Qed.

(** The loop over the triggers: every trigger that yields a value
    overwrites the entry, so the last of them decides. *)
Lemma trigger_loop (query : string) (triggers : list string)
  (entities : gmap string string) :
  let silent := fun k => forall value, ~ yields k query value in
  exists entities',
    for_each triggers (fun machine_keyword entities =>
      if str_in machine_keyword query then
        let words := split query in
        scan_words machine_keyword words (enumerate words) entities
      else Ok entities) entities = Ok entities'
    /\ ((exists pre trigger post value,
           triggers = pre ++ trigger :: post
           /\ yields trigger query value
           /\ Forall silent post
           /\ entities' = <["machine_id" := value]> entities)
        \/ (Forall silent triggers /\ entities' = entities)).
Proof.
  intros silent.
  set (body := fun (machine_keyword : string) (entities : gmap string string) => _).
  revert entities.
  induction triggers as [|k triggers IH]; intros entities.
  - exists entities. split; [reflexivity|]. right. split; [constructor | reflexivity].
  - rewrite for_each_cons.
    destruct (trigger_step query k entities) as [(v & Hy & Hrun) | [Hnone Hrun]];
      cbv zeta in Hrun.
    + replace (body k entities) with (Ok (<["machine_id" := v]> entities))
        by (symmetry; exact Hrun).
      destruct (IH (<["machine_id" := v]> entities))
        as (entities' & Hloop & [(pre & t & post & v' & Htr & Hy' & Hpost & ->) | [Hsil ->]]).
      * exists (<["machine_id" := v']> entities). split.
        -- rewrite Hloop. now rewrite insert_insert_eq.
        -- left. exists (k :: pre), t, post, v'. rewrite Htr. auto.
      * exists (<["machine_id" := v]> entities). split; [exact Hloop|].
        left. exists [], k, triggers, v. auto.
    + replace (body k entities) with (Ok entities) by (symmetry; exact Hrun).
      destruct (IH entities)
        as (entities' & Hloop & [(pre & t & post & v' & Htr & Hy' & Hpost & ->) | [Hsil ->]]).
      * exists (<["machine_id" := v']> entities). split; [exact Hloop|].
        left. exists (k :: pre), t, post, v'. rewrite Htr. auto.
      * exists entities. split; [exact Hloop|].
        right. split; [now constructor | reflexivity].
Qed.

(** [_extract_entities] never raises, and records the value of the last
    trigger, in configured order, that yields one. *)
Lemma extract_entities_last (query : string) :
  let silent := fun k => forall value, ~ yields k query value in
  exists found,
    _extract_entities query = Ok found
    /\ ((exists pre trigger post value,
           machine_triggers = pre ++ trigger :: post
           /\ yields trigger query value
           /\ Forall silent post
           /\ found = {["machine_id" := value]})
        \/ (Forall silent machine_triggers /\ found = ∅)).
Proof.
  intros silent. unfold _extract_entities.
  change (dict_item entity_patterns "machine_id") with (Ok machine_triggers).
  cbn [bind].
  destruct (trigger_loop query machine_triggers ∅)
    as (found & Hrun & [(pre & t & post & v & Htr & Hy & Hpost & ->) | [Hsil ->]]).
  - exists (<["machine_id" := v]> ∅). split; [exact Hrun|].
    left. exists pre, t, post, v. rewrite insert_empty. auto.
  - exists ∅. split; [exact Hrun|]. right. auto.
Qed.

(** ** Selecting the best intent *)

Section MaxFacts.
Context {K : Type} (c : K -> nat) (key : K -> option float).
Hypothesis key_counts : forall k, key k = Some (F (c k)).
Hypothesis count_small : forall k, c k <= 9.

Lemma max_from_first (items : list K) (m : K) (mid : list K) :
  Forall (fun x => c x <= c m) mid ->
  exists r,
    max_from key m (Some (F (c m))) items = Ok r
    /\ first_maximum c (m :: mid ++ items) r.
Proof.
  revert m mid. induction items as [|item rest IH]; intros m mid Hmid.
  - exists m. split; [reflexivity|].
    exists [], mid. rewrite app_nil_r. repeat split; [constructor | exact Hmid].
  - cbn [max_from]. rewrite key_counts. cbn [key_gt bind].
    rewrite F_ltb by apply count_small.
    destruct (c m <? c item) eqn:Hlt.
    + apply Nat.ltb_lt in Hlt.
      destruct (IH item [] (List.Forall_nil _)) as (r & Hrun & pre & post & Hsplit & Hpre & Hpost).
      exists r. split; [exact Hrun|].
      assert (Hitem : c item <= c r).
      { destruct pre as [|x pre]; simpl in Hsplit; injection Hsplit as -> ->.
        - lia.
        - inversion Hpre; subst. lia. }
      exists ((m :: mid) ++ pre), post. repeat split.
      * simpl in Hsplit. rewrite Hsplit. now rewrite <- app_assoc.
      * apply List.Forall_app. split; [|exact Hpre].
        constructor; [lia|].
        eapply List.Forall_impl; [|exact Hmid]. simpl. intros x Hx. lia.
      * exact Hpost.
    + apply Nat.ltb_ge in Hlt.
      destruct (IH m (mid ++ [item])) as (r & Hrun & Hfirst).
      { apply List.Forall_app. split; [exact Hmid | now constructor]. }
      exists r. split; [exact Hrun|].
      now rewrite <- app_assoc in Hfirst.
Qed.

(** [max(items, key=key)] returns the first item of greatest count. *)
Lemma max_key_first (item : K) (rest : list K) :
  exists r,
    max_key (item :: rest) key = Ok r
    /\ first_maximum c (item :: rest) r.
Proof.
  unfold max_key. rewrite key_counts.
  apply (max_from_first rest item []). constructor.
Qed.
End MaxFacts.

Lemma raw_score_le (query : string) (i : ManufacturingIntent) :
  raw_score query i <= 9.
Proof.
  unfold raw_score.
  destruct (dict_get intent_patterns i) as [keywords|] eqn:Hi; [|lia].
  etransitivity; [apply hits_le|].
  destruct i; cbv in Hi; try discriminate Hi; injection Hi as <-; simpl; lia.
Qed.

Lemma total_score_le (query : string) : total_score query <= 43.
Proof.
  unfold total_score. cbn [ManufacturingIntent_members map list_sum fold_right].
  pose proof (hits_le) as H.
  change (raw_score query WORK_ORDER) with 0.
  change (raw_score query PART_SEARCH) with 0.
  change (raw_score query TRAINING) with 0.
  change (raw_score query UNKNOWN) with 0.
  pose proof (raw_score_le query SOP_LOOKUP).
  pose proof (raw_score_le query PRODUCTION_STATUS).
  pose proof (raw_score_le query MAINTENANCE_REQUEST).
  assert (raw_score query QUALITY_CHECK <= 8) by apply hits_le.
  assert (raw_score query SAFETY_QUERY <= 8) by apply hits_le.
  lia.
Qed.

Lemma raw_score_le_total (query : string) (i : ManufacturingIntent) :
  raw_score query i <= total_score query.
Proof.
  unfold total_score. cbn [ManufacturingIntent_members map list_sum fold_right].
  destruct i; lia.
Qed.

(** ** The whole of [classify] *)

Lemma scores_lookup (query : string) (i : ManufacturingIntent) :
  dict_get (map (fun i => (i, F (raw_score query i))) ManufacturingIntent_members) i
  = Some (F (raw_score query i)).
Proof. destruct i; reflexivity. Qed.

(** [classify] never raises, and its result is made of the first intent
    of greatest raw score, the quotient of that score by the floored
    total, and the extracted entities. *)
Lemma classify_run (query : string) :
  exists best found,
    first_maximum (raw_score query) ManufacturingIntent_members best
    /\ _extract_entities (lower query) = Ok found
    /\ let b := raw_score query best in
       let t := Nat.max (total_score query) 1 in
       let needed := (2 * b <? t) || (size found =? 0) in
       classify query
       = Ok {| intent := best;
               confidence := PrimFloat.div (F b) (F t);
               entities := found;
               clarification_needed := needed;
               clarification_question :=
                 if needed then question_for best else None |}.
Proof.
  destruct (max_key_first (raw_score query) _ (scores_lookup query)
              (raw_score_le query) SOP_LOOKUP
              (tl ManufacturingIntent_members)) as (best & Hmax & Hfirst).
  destruct (extract_entities_last (lower query)) as (found & Hfound & _).
  exists best, found. split; [exact Hfirst|]. split; [exact Hfound|].
  pose proof (raw_score_le query best) as Hb.
  pose proof (total_score_le query) as Ht.
  pose proof (raw_score_le_total query best) as Hbt.
  cbv zeta. unfold classify.
  rewrite score_intents_counts. cbn [bind].
  change (dict_keys (map (fun i => (i, F (raw_score query i)))
                         ManufacturingIntent_members))
    with (SOP_LOOKUP :: tl ManufacturingIntent_members).
  rewrite Hmax. cbn [bind].
  unfold dict_item. rewrite scores_lookup. cbn [bind].
  change (dict_values (map (fun i => (i, F (raw_score query i)))
                           ManufacturingIntent_members))
    with (map F (map (raw_score query) ManufacturingIntent_members)).
  unfold sum. change 0%float with (F 0).
  rewrite F_sum.
  2: { apply List.Forall_map, List.Forall_forall. intros i _. apply raw_score_le. }
  2: { exact Ht. }
  change (0 + list_sum (map (raw_score query) ManufacturingIntent_members))
    with (total_score query).
  rewrite max2_floor by exact Ht.
  unfold truediv. rewrite F_nonzero by lia. cbn [bind].
  rewrite Hfound. cbn [bind].
  rewrite quotient_lt_half by lia.
  destruct (quotient_unit (raw_score query best) (Nat.max (total_score query) 1))
    as (Hmin & _); [lia | lia | lia |].
  rewrite Hmin.
  destruct ((2 * raw_score query best <? Nat.max (total_score query) 1)
            || (size found =? 0)); [|reflexivity].
  destruct best; reflexivity.
Qed.

Lemma classify_injective_result (query : string) (r : ClassifiedIntent) :
  classify query = Ok r ->
  exists found,
    first_maximum (raw_score query) ManufacturingIntent_members (intent r)
    /\ _extract_entities (lower query) = Ok found
    /\ let b := raw_score query (intent r) in
       let t := Nat.max (total_score query) 1 in
       let needed := (2 * b <? t) || (size found =? 0) in
       r = {| intent := intent r;
              confidence := PrimFloat.div (F b) (F t);
              entities := found;
              clarification_needed := needed;
              clarification_question :=
                if needed then question_for (intent r) else None |}.
Proof.
  destruct (classify_run query) as (best & found & Hfirst & Hfound & Hrun).
  cbv zeta in Hrun. rewrite Hrun. intros [= <-]. cbn [intent].
  exists found. auto.
Qed.

Lemma hits_none (keywords : list string) (text : string) :
  forallb (fun k => negb (str_in k text)) keywords = true ->
  hits keywords text = 0.
Proof.
  induction keywords as [|k keywords IH]; [reflexivity|].
  cbn [forallb]. rewrite andb_true_iff, negb_true_iff. intros [Hk Hrest].
  rewrite hits_cons, Hk, IH by exact Hrest. reflexivity.
Qed.

Lemma no_trigger_no_score (query : string) (i : ManufacturingIntent) :
  matches_no_trigger query = true -> raw_score query i = 0.
Proof.
  unfold matches_no_trigger, intent_patterns. cbn [forallb].
  rewrite !andb_true_iff. intros (H1 & H2 & H3 & H4 & H5 & _).
  destruct i; try reflexivity; apply hits_none; cbn [forallb];
    rewrite !andb_true_iff; assumption.
Qed.

(** The winner always has an entry in the pattern table: an intent
    without one scores 0 and stands after SOP_LOOKUP, which it would
    have to beat strictly. *)
Lemma winner_has_pattern (query : string) (r : ClassifiedIntent) :
  classify query = Ok r -> has_pattern (intent r) = true.
Proof.
  intros Hr. apply classify_injective_result in Hr as (_ & Hfirst & _).
  destruct Hfirst as (pre & post & Hsplit & Hpre & _).
  destruct pre as [|x pre]; simpl in Hsplit.
  - injection Hsplit as <- _. reflexivity.
  - injection Hsplit as <- _. inversion Hpre as [|? ? Hlt _]; subst.
    destruct (intent r); try reflexivity;
      change (raw_score query _) with 0 in Hlt at 2; lia.
Qed.

(** ** The claims *)

(** C3. The confidence returned by [classify] is the selected intent's
    score divided by the sum of all scores floored at 1, passed through
    [min(1.0, _)]; that is also its clamp to the interval from 0 to 1, and
    neither changes the quotient.  An all-zero query gets confidence 0 and
    no division error, and the confidence always lies between 0 and 1.  The scores are the floats the scoring phase leaves
    in the dictionary, and they hold the raw keyword counts. *)
Theorem classify_confidence (query : string) :
  exists r scores score,
    classify query = Ok r
    /\ score_intents (lower query) = Ok scores
    /\ dict_get scores (intent r) = Some score
    /\ score = F (raw_score query (intent r))
    /\ sum (dict_values scores) = F (total_score query)
    /\ let quotient :=
         PrimFloat.div score (max2 (sum (dict_values scores)) 1%float) in
       confidence r = min2 1%float quotient
       /\ confidence r = max2 0%float (min2 1%float quotient)
       /\ confidence r = quotient
       /\ (total_score query = 0 -> confidence r = 0%float)
       /\ PrimFloat.leb 0%float (confidence r) = true
       /\ PrimFloat.leb (confidence r) 1%float = true.
Proof.
  destruct (classify_run query) as (best & found & _ & _ & Hrun).
  cbv zeta in Hrun.
  pose proof (raw_score_le query best) as Hb.
  pose proof (total_score_le query) as Ht.
  pose proof (raw_score_le_total query best) as Hbt.
  assert (Hsum :
    sum (dict_values (map (fun i => (i, F (raw_score query i)))
                          ManufacturingIntent_members))
    = F (total_score query)).
  { change (dict_values _)
      with (map F (map (raw_score query) ManufacturingIntent_members)).
    unfold sum. change 0%float with (F 0). rewrite F_sum; [reflexivity | | exact Ht].
    apply List.Forall_map, List.Forall_forall. intros i _. apply raw_score_le. }
  eexists _, _, (F (raw_score query best)).
  split; [exact Hrun|]. split; [apply score_intents_counts|].
  cbn [intent confidence]. split; [apply scores_lookup|].
  split; [reflexivity|]. split; [exact Hsum|].
  rewrite Hsum, max2_floor by exact Ht.
  destruct (quotient_unit (raw_score query best) (Nat.max (total_score query) 1))
    as (Hmin & Hmax & Hlo & Hhi); [lia | lia | lia |].
  split; [now rewrite Hmin|]. split; [now rewrite Hmin, Hmax|].
  split; [reflexivity|].
  split; [|split; assumption].
  intros Hzero. replace (raw_score query best) with 0 by lia.
  apply quotient_zero. lia.
Qed.

Lemma classify_confidence_witness :
  total_score "" = 0
  /\ exists r, classify "" = Ok r /\ confidence r = 0%float.
Proof.
  split; [reflexivity|].
  destruct (classify_confidence "")
    as (r & scores & score & Hr & _ & _ & _ & _ & _ & _ & _ & Hzero & _).
  exists r. split; [exact Hr | apply Hzero; reflexivity].
Defined.

(** C4 (as the code has it). [classify] never raises.  On a query in
    which no keyword of any pattern occurs, the empty query among them,
    it returns the first intent of the enumeration, SOP_LOOKUP, with
    confidence 0 and clarification needed. *)
Theorem classify_no_trigger (query : string) :
  exists r,
    classify query = Ok r
    /\ (matches_no_trigger query = true ->
        intent r = SOP_LOOKUP
        /\ confidence r = 0%float
        /\ clarification_needed r = true).
Proof.
  destruct (classify_run query) as (best & found & Hfirst & _ & Hrun).
  cbv zeta in Hrun. eexists. split; [exact Hrun|].
  intros Hnone. cbn [intent confidence clarification_needed].
  assert (Hzero : forall i, raw_score query i = 0)
    by (intros i; now apply no_trigger_no_score).
  assert (Htotal : total_score query = 0).
  { unfold total_score. cbn [ManufacturingIntent_members map list_sum fold_right].
    now rewrite !Hzero. }
  rewrite Hzero, Htotal. split; [|split; reflexivity].
  destruct Hfirst as (pre & post & Hsplit & Hpre & _).
  destruct pre as [|x pre]; simpl in Hsplit.
  - now injection Hsplit as <- _.
  - inversion Hpre as [|? ? Hlt _]; subst. rewrite !Hzero in Hlt. lia.
Qed.

Lemma classify_no_trigger_witness :
  matches_no_trigger "what time is lunch" = true
  /\ exists r,
       classify "what time is lunch" = Ok r
       /\ intent r = SOP_LOOKUP
       /\ confidence r = 0%float
       /\ clarification_needed r = true.
Proof.
  split; [reflexivity|].
  destruct (classify_no_trigger "what time is lunch") as (r & Hr & H).
  exists r. split; [exact Hr | apply H; reflexivity].
Defined.

(** C4 as stated fails: the empty query holds no trigger keyword, and
    [classify] answers SOP_LOOKUP, not UNKNOWN. *)
Lemma classify_empty_not_unknown :
  matches_no_trigger "" = true
  /\ exists r,
       classify "" = Ok r /\ intent r = SOP_LOOKUP /\ intent r <> UNKNOWN.
Proof.
  split; [reflexivity|]. eexists. split; [vm_compute; reflexivity|].
  split; [reflexivity | discriminate].
Qed.

(** C5. [classify] selects the intent of greatest raw score, and among
    several of that score the one that comes first in the order in which
    the enumeration defines its members; the scores compared are the
    floats of the scoring phase, which hold the raw counts.  Being a
    function of the query and the tables, it selects the same intent on
    every run. *)
Theorem classify_first_maximum (query : string) :
  exists r,
    classify query = Ok r
    /\ score_intents (lower query)
       = Ok (map (fun i => (i, F (raw_score query i))) ManufacturingIntent_members)
    /\ first_maximum (raw_score query) ManufacturingIntent_members (intent r)
    /\ (forall i, raw_score query i <= raw_score query (intent r)).
Proof.
  destruct (classify_run query) as (best & found & Hfirst & _ & Hrun).
  cbv zeta in Hrun. eexists. split; [exact Hrun|].
  split; [apply score_intents_counts|]. cbn [intent].
  split; [exact Hfirst|].
  destruct Hfirst as (pre & post & Hsplit & Hpre & Hpost).
  intros i.
  assert (Hi : In i (pre ++ best :: post))
    by (rewrite <- Hsplit; destruct i; simpl; tauto).
  rewrite List.Forall_forall in Hpre, Hpost.
  apply in_app_or in Hi as [Hi | [<- | Hi]];
    [apply Hpre in Hi; lia | lia | now apply Hpost].
Qed.

(** Two ties with nonzero scores: the earlier member wins each. *)
Example tie_sop_production :
  exists r,
    classify "show status" = Ok r
    /\ raw_score "show status" SOP_LOOKUP = 1
    /\ raw_score "show status" PRODUCTION_STATUS = 1
    /\ intent r = SOP_LOOKUP.
Proof. eexists. split; [vm_compute; reflexivity|]. repeat split. Qed.

Example tie_production_maintenance :
  exists r,
    classify "repair status" = Ok r
    /\ raw_score "repair status" PRODUCTION_STATUS = 1
    /\ raw_score "repair status" MAINTENANCE_REQUEST = 1
    /\ intent r = PRODUCTION_STATUS.
Proof. eexists. split; [vm_compute; reflexivity|]. repeat split. Qed.

(** C6 (as the code has it). For each trigger of the "machine_id" kind,
    in configured order, that occurs in the query, the tokens are scanned
    for the first one that holds the trigger and is followed by a token
    with a digit; that following token is recorded and the scan of the
    tokens stops.  The scan of the triggers goes on, and a later trigger
    that yields a value overwrites the entry: the recorded machine_id is
    the value of the last trigger that yields one, and nothing is recorded
    when none does.  The extraction never raises. *)
Theorem extract_entities_last_trigger (query : string) :
  let silent := fun k => forall value, ~ yields k query value in
  exists found,
    _extract_entities query = Ok found
    /\ dict_get entity_patterns "machine_id" = Some machine_triggers
    /\ ((exists pre trigger post value,
           machine_triggers = pre ++ trigger :: post
           /\ yields trigger query value
           /\ Forall silent post
           /\ found = {["machine_id" := value]})
        \/ (Forall silent machine_triggers /\ found = ∅)).
Proof.
  intros silent.
  destruct (extract_entities_last query) as (found & Hrun & Hcases).
  exists found. split; [exact Hrun|]. split; [reflexivity | exact Hcases].
Qed.

(** C6 as stated fails: on "press 12 pump 7" the first trigger, "press",
    yields "12", the later trigger "pump" yields "7", and the recorded
    machine_id is "7". *)
Lemma first_trigger_overwritten :
  let query := "press 12 pump 7" in
  (exists rest, machine_triggers = "press" :: rest)
  /\ yields "press" query "12"
  /\ yields "pump" query "7"
  /\ _extract_entities query = Ok {["machine_id" := "7"]}
  /\ "7" <> "12".
Proof.
  cbv zeta. split; [eexists; reflexivity|].
  split; [|split; [|split; [vm_compute; reflexivity | discriminate]]].
  - split; [reflexivity|]. exists 0. split; [|split; [reflexivity|]].
    + exists "press", "12". repeat split.
    + intros j Hj. lia.
  - split; [reflexivity|]. exists 2. split; [|split; [reflexivity|]].
    + exists "pump", "7". repeat split.
    + intros j Hj (word & next_word & Hw & Hn & Hin & _).
      destruct j as [|[|j]]; [| |lia];
        vm_compute in Hw; injection Hw as <-; discriminate Hin.
Qed.

(** C7. The clarification question is decided by the need for
    clarification and the selected intent alone: "Which machine or
    process?" for SOP_LOOKUP and "Which equipment needs repair?" for
    MAINTENANCE_REQUEST when clarification is needed, and none in every
    other case; so it is present exactly when clarification is needed and
    the intent is one of those two. *)
Theorem classify_question (query : string) :
  exists r,
    classify query = Ok r
    /\ clarification_question r
       = match clarification_needed r, intent r with
         | true, SOP_LOOKUP => Some "Which machine or process?"
         | true, MAINTENANCE_REQUEST => Some "Which equipment needs repair?"
         | _, _ => None
         end
    /\ (clarification_question r <> None
        <-> clarification_needed r = true
            /\ (intent r = SOP_LOOKUP \/ intent r = MAINTENANCE_REQUEST)).
Proof.
  destruct (classify_run query) as (best & found & _ & _ & Hrun).
  cbv zeta in Hrun. eexists. split; [exact Hrun|].
  cbn [intent clarification_needed clarification_question].
  destruct ((2 * raw_score query best <? Nat.max (total_score query) 1)
            || (size found =? 0)).
  - destruct best; cbn [question_for]; (split; [reflexivity|]); split;
      solve [ intros _; auto
            | intros H; now contradiction H
            | intros [_ [H | H]]; discriminate H
            | intros _; discriminate ].
  - split; [destruct best; reflexivity|]. split.
    + intros H. now contradiction H.
    + intros [H _]. discriminate H.
Qed.

Lemma classify_question_witness :
  exists r,
    classify "the seal is broken" = Ok r
    /\ clarification_needed r = true
    /\ intent r = MAINTENANCE_REQUEST
    /\ clarification_question r <> None.
Proof.
  destruct (classify_question "the seal is broken") as (r & Hr & Hq & Hiff).
  exists r. split; [exact Hr|].
  assert (Hrun : classify "the seal is broken"
                 = Ok {| intent := MAINTENANCE_REQUEST;
                         confidence := 1%float;
                         entities := ∅;
                         clarification_needed := true;
                         clarification_question :=
                           Some "Which equipment needs repair?" |})
    by (vm_compute; reflexivity).
  rewrite Hrun in Hr. injection Hr as <-.
  split; [reflexivity|]. split; [reflexivity|].
  apply Hiff. split; [reflexivity | right; reflexivity].
Defined.

(** C9 (as the code has it). The intents [classify] can return are those
    with an entry in [intent_patterns]: SOP_LOOKUP, PRODUCTION_STATUS,
    MAINTENANCE_REQUEST, QUALITY_CHECK and SAFETY_QUERY.  An intent
    without entry scores 0 and never beats SOP_LOOKUP, which stands first;
    the query without any keyword is answered SOP_LOOKUP. *)
Theorem reachable_iff_pattern (i : ManufacturingIntent) :
  (exists query r, classify query = Ok r /\ intent r = i)
  <-> has_pattern i = true.
Proof.
  split.
  - intros (query & r & Hr & <-). now apply winner_has_pattern in Hr.
  - intros Hi.
    destruct i; try discriminate Hi;
      [ exists "show" | exists "status" | exists "repair"
      | exists "quality" | exists "hazard" ];
      eexists; (split; [vm_compute; reflexivity | reflexivity]).
Qed.

Lemma reachable_iff_pattern_witness :
  has_pattern QUALITY_CHECK = true
  /\ exists query r, classify query = Ok r /\ intent r = QUALITY_CHECK.
Proof.
  split; [reflexivity|].
  apply (proj2 (reachable_iff_pattern QUALITY_CHECK)). reflexivity.
Defined.

(** C9 as stated fails: UNKNOWN is a member of the enumeration, it has
    no pattern, and no query is classified as UNKNOWN. *)
Lemma unknown_unreachable :
  In UNKNOWN ManufacturingIntent_members
  /\ has_pattern UNKNOWN = false
  /\ forall query r, classify query = Ok r -> intent r <> UNKNOWN.
Proof.
  split; [simpl; tauto|]. split; [reflexivity|].
  intros query r Hr Hu. apply winner_has_pattern in Hr.
  rewrite Hu in Hr. discriminate Hr.
Qed.

End ClassifierProofs.

(* ===================================================================== *)
(** * Further facts about the text primitives *)
(* ===================================================================== *)

Module TextFacts.
Import Py PyFacts.

Lemma lower_char_idem (c : ascii) : lower_char (lower_char c) = lower_char c.
Proof. destruct c as [[] [] [] [] [] [] [] []]; reflexivity. Qed.

(** Lower-casing a lower-cased text changes nothing. *)
Lemma lower_idem (s : string) : lower (lower s) = lower s.
Proof.
  induction s as [|c s IH]; [reflexivity|].
  simpl. now rewrite lower_char_idem, IH.
Qed.

Lemma any_char_app (p : ascii -> bool) (a b : string) :
  any_char p (a +:+ b) = any_char p a || any_char p b.
Proof.
  induction a as [|c a IH]; [reflexivity|].
  rewrite append_cons. simpl. now rewrite IH, orb_assoc.
Qed.

(** A character test that fails on the whole text, and on the token
    being read, fails on every token of the split. *)
Lemma split_from_none (p : ascii -> bool) (s : string) (cur : option string) :
  any_char p s = false ->
  match cur with Some w => any_char p w = false | None => True end ->
  Forall (fun w => any_char p w = false) (split_from cur s).
Proof.
  revert cur. induction s as [|c s IH]; intros cur Hs Hcur.
  - destruct cur; simpl; repeat constructor. exact Hcur.
  - simpl in Hs. apply orb_false_iff in Hs as [Hc Hs].
    cbn [split_from]. destruct (isspace c).
    + destruct cur as [w|].
      * constructor; [exact Hcur | now apply IH].
      * now apply IH.
    + apply IH; [exact Hs|].
      rewrite any_char_app. simpl. rewrite Hc.
      destruct cur as [w|]; [now rewrite Hcur | reflexivity].
Qed.

Lemma split_none (p : ascii -> bool) (s : string) :
  any_char p s = false -> Forall (fun w => any_char p w = false) (split s).
Proof. intros Hs. now apply split_from_none. Qed.

(** Tokens are not empty and hold no white space. *)
Lemma split_from_tokens (s : string) (cur : option string) :
  match cur with
  | Some w => w <> "" /\ any_char isspace w = false
  | None => True
  end ->
  Forall (fun w => w <> "" /\ any_char isspace w = false) (split_from cur s).
Proof.
  revert cur. induction s as [|c s IH]; intros cur Hcur.
  - destruct cur; simpl; repeat constructor; apply Hcur.
  - cbn [split_from]. destruct (isspace c) eqn:Hc.
    + destruct cur as [w|].
      * constructor; [exact Hcur | now apply IH].
      * now apply IH.
    + apply IH. split.
      * destruct cur as [[|x w]|]; discriminate.
      * rewrite any_char_app. simpl. rewrite Hc.
        destruct cur as [w|]; [destruct Hcur as [_ ->] |]; reflexivity.
Qed.

Lemma split_tokens (s : string) :
  Forall (fun w => w <> "" /\ any_char isspace w = false) (split s).
Proof. now apply split_from_tokens. Qed.

(** A text none of whose characters changes under [lower_char] is its
    own lower-casing. *)
Lemma lower_fixed (s : string) :
  any_char (fun c => negb (Ascii.eqb (lower_char c) c)) s = false ->
  lower s = s.
Proof.
  induction s as [|c s IH]; [reflexivity|].
  simpl. intros H. apply orb_false_iff in H as [Hc Hs].
  apply negb_false_iff, Ascii.eqb_eq in Hc. now rewrite Hc, IH.
Qed.

Lemma lower_all_fixed (s : string) :
  any_char (fun c => negb (Ascii.eqb (lower_char c) c)) (lower s) = false.
Proof.
  induction s as [|c s IH]; [reflexivity|].
  simpl. rewrite IH, lower_char_idem, Ascii.eqb_refl. reflexivity.
Qed.

(** The loop with early return, on a body that tests and then returns,
    is a search for the first element that passes the test. *)
Lemma for_return_find {A R : Type} (p : A -> bool) (f : A -> R) (xs : list A) :
  for_return xs (fun x => if p x then Some (f x) else None)
  = option_map f (List.find p xs).
Proof.
  induction xs as [|x xs IH]; [reflexivity|].
  simpl. destruct (p x); [reflexivity | exact IH].
Qed.

Lemma find_some_iff {A : Type} (p : A -> bool) (xs : list A) :
  (exists x, List.find p xs = Some x) <-> exists x, In x xs /\ p x = true.
Proof.
  split.
  - intros [x Hx]. exists x. now apply List.find_some in Hx.
  - intros [x [Hin Hp]]. destruct (List.find p xs) as [y|] eqn:Hf.
    + now exists y.
    + eapply List.find_none in Hf; [|exact Hin]. congruence.
Qed.

End TextFacts.

(* ===================================================================== *)
(** * More on the safety guardrails *)
(* ===================================================================== *)

Module SafetyExtras.
Import Py PyFacts TextFacts Notions SafetyGuardrails.

(** [check_safety] as two searches over the keyword lists. *)
Lemma check_safety_run (query response : string) :
  let text := lower response in
  check_safety query response
  = match List.find (fun k => str_in k text) forbidden_keywords with
    | Some k =>
        let reason := "Response contains unsafe keyword: '" +:+ k +:+ "'" in
        ((FORBIDDEN, Some reason), ["Blocked: " +:+ reason])
    | None =>
        match List.find (fun k => str_in k text) confirmation_keywords with
        | Some _ =>
            ((REQUIRES_CONFIRMATION,
              Some "Emergency action requires human confirmation"), [])
        | None => ((ALLOWED, None), [])
        end
    end.
Proof.
  intros text. unfold check_safety. fold text.
  rewrite (for_return_find (fun k => str_in k text)
             (fun k => ((FORBIDDEN,
                         Some ("Response contains unsafe keyword: '" +:+ k +:+ "'")),
                        ["Blocked: " +:+ "Response contains unsafe keyword: '"
                                     +:+ k +:+ "'"]))).
  rewrite (for_return_find (fun k => str_in k text)
             (fun _ => ((REQUIRES_CONFIRMATION,
                         Some "Emergency action requires human confirmation"),
                        @nil string))).
  destruct (List.find _ forbidden_keywords); [reflexivity|].
  destruct (List.find _ confirmation_keywords); reflexivity.
Qed.

Lemma find_occurs (keywords : list string) (text : string) :
  (exists k, List.find (fun k => str_in k text) keywords = Some k)
  <-> occurs keywords text.
Proof. apply find_some_iff. Qed.

Lemma find_none_occurs (keywords : list string) (text : string) :
  List.find (fun k => str_in k text) keywords = None <-> ~ occurs keywords text.
Proof.
  rewrite <- find_occurs. destruct (List.find _ keywords) as [k|]; split.
  - discriminate.
  - intros H. exfalso. apply H. now exists k.
  - intros _ [k Hk]. discriminate.
  - reflexivity.
Qed.

Lemma occurs_context (keywords : list string) (a text b : string) :
  occurs keywords (lower text) -> occurs keywords (lower (a +:+ text +:+ b)).
Proof.
  intros (k & Hin & Hk). exists k. split; [exact Hin|].
  rewrite !lower_app. now apply str_in_app_r, str_in_app_l.
Qed.

Lemma level_forbidden_iff (query response : string) :
  safety_level query response = FORBIDDEN
  <-> occurs forbidden_keywords (lower response).
Proof.
  unfold safety_level. rewrite check_safety_run, <- find_occurs.
  destruct (List.find _ forbidden_keywords) as [k|]; cbn [fst snd returned warnings].
  - split; eauto.
  - destruct (List.find _ confirmation_keywords); cbn [fst snd returned warnings];
      (split; [discriminate | intros [? ?]; discriminate]).
Qed.

Lemma level_allowed_iff (query response : string) :
  safety_level query response = ALLOWED
  <-> ~ occurs forbidden_keywords (lower response)
      /\ ~ occurs confirmation_keywords (lower response).
Proof.
  unfold safety_level. rewrite check_safety_run, <- !find_none_occurs.
  destruct (List.find _ forbidden_keywords) as [k|]; cbn [fst snd returned warnings].
  - split; [discriminate | intros [? _]; discriminate].
  - destruct (List.find _ confirmation_keywords); cbn [fst snd returned warnings].
    + split; [discriminate | intros [_ ?]; discriminate].
    + split; auto.
Qed.

(** X1. Which level [check_safety] returns, in terms of the keywords
    that occur in the lower-cased response: a forbidden keyword decides
    alone, a confirmation keyword counts only without one, and ALLOWED
    means that neither kind occurs. *)
Theorem check_safety_level_iff (query response : string) :
  let text := lower response in
  let level := safety_level query response in
  (level = FORBIDDEN <-> occurs forbidden_keywords text)
  /\ (level = REQUIRES_CONFIRMATION
      <-> ~ occurs forbidden_keywords text /\ occurs confirmation_keywords text)
  /\ (level = ALLOWED
      <-> ~ occurs forbidden_keywords text /\ ~ occurs confirmation_keywords text).
Proof.
  intros text level. subst level text.
  split; [apply level_forbidden_iff|]. split; [|apply level_allowed_iff].
  pose proof (level_forbidden_iff query response) as Hf.
  pose proof (level_allowed_iff query response) as Ha.
  unfold safety_level. rewrite check_safety_run.
  rewrite <- (find_occurs confirmation_keywords), <- find_none_occurs.
  destruct (List.find _ forbidden_keywords) as [k|]; cbn [fst snd returned warnings].
  - split; [discriminate | intros [? _]; discriminate].
  - destruct (List.find _ confirmation_keywords) as [k|]; cbn [fst snd returned warnings].
    + split; eauto.
    + split; [discriminate | intros [_ [? ?]]; discriminate].
Qed.

Lemma check_safety_level_iff_witness :
  occurs forbidden_keywords
    (lower "Press the emergency stop, then DISABLE the pump")
  /\ safety_level "" "Press the emergency stop, then DISABLE the pump"
     = FORBIDDEN.
Proof.
  assert (H : occurs forbidden_keywords
                (lower "Press the emergency stop, then DISABLE the pump")).
  { exists "disable". split; [simpl; tauto | reflexivity]. }
  split; [exact H|].
  apply (proj1 (check_safety_level_iff ""
                  "Press the emergency stop, then DISABLE the pump")).
  exact H.
Defined.

(** X2. An explanation is returned exactly when the level is not
    ALLOWED, and a warning is logged exactly when the level is FORBIDDEN:
    it is "Blocked: " followed by the explanation. *)
Theorem check_safety_explanation_and_log (query response : string) :
  let level := safety_level query response in
  let explanation := snd (returned (check_safety query response)) in
  (explanation = None <-> level = ALLOWED)
  /\ warnings (check_safety query response)
     = match level, explanation with
       | FORBIDDEN, Some reason => ["Blocked: " +:+ reason]
       | _, _ => []
       end.
Proof.
  cbv zeta. unfold safety_level. rewrite check_safety_run.
  destruct (List.find _ forbidden_keywords);
    [|destruct (List.find _ confirmation_keywords)]; cbn [fst snd returned warnings];
    (split; [split; discriminate || reflexivity | reflexivity]).
Qed.

(** X3. A refused response stays refused inside any surrounding text,
    and whatever the query. *)
Theorem forbidden_survives_context (q q' a response b : string) :
  safety_level q response = FORBIDDEN ->
  safety_level q' (a +:+ response +:+ b) = FORBIDDEN.
Proof.
  rewrite !level_forbidden_iff. apply occurs_context.
Qed.

Lemma forbidden_survives_context_witness :
  safety_level "" "remove the cover" = FORBIDDEN
  /\ safety_level "how?" ("First " +:+ "remove the cover" +:+ ", then clean.")
     = FORBIDDEN.
Proof.
  split; [reflexivity|].
  apply (forbidden_survives_context "" "how?" "First " "remove the cover"
           ", then clean.").
  reflexivity.
Defined.

(** X4. A text that is allowed is allowed in each of its parts: no part
    of it, delivered alone, would be refused or need confirmation. *)
Theorem allowed_parts (q a b : string) :
  safety_level q (a +:+ b) = ALLOWED ->
  safety_level q a = ALLOWED /\ safety_level q b = ALLOWED.
Proof.
  rewrite !level_allowed_iff. intros [Hf Hc].
  assert (Hl : forall kws, occurs kws (lower a) -> occurs kws (lower (a +:+ b))).
  { intros kws (k & Hin & Hk). exists k. split; [exact Hin|].
    rewrite lower_app. now apply str_in_app_l. }
  assert (Hr : forall kws, occurs kws (lower b) -> occurs kws (lower (a +:+ b))).
  { intros kws (k & Hin & Hk). exists k. split; [exact Hin|].
    rewrite lower_app. now apply str_in_app_r. }
  repeat split; intros H; (apply Hf + apply Hc); (now apply Hl) + (now apply Hr).
Qed.

Lemma allowed_parts_witness :
  safety_level "" ("Check the oil level. " +:+ "Then close the hatch.") = ALLOWED
  /\ safety_level "" "Check the oil level. " = ALLOWED
  /\ safety_level "" "Then close the hatch." = ALLOWED.
Proof.
  split; [reflexivity|].
  apply (allowed_parts "" "Check the oil level. " "Then close the hatch.").
  reflexivity.
Defined.

(** X5. The check does not see letter case: a response and its
    lower-casing get the same level, explanation and warnings. *)
Theorem check_safety_case_blind (query response : string) :
  check_safety query (lower response) = check_safety query response.
Proof. unfold check_safety. now rewrite lower_idem. Qed.

(** X6. [sanitize_response] does not recognise its own disclaimer:
    whenever a call appends one, calling it again on the result, with the
    same topic, appends the same disclaimer a second time. *)
Theorem sanitize_twice_duplicates (response : string)
  (safety_topic : option string) :
  sanitize_response response safety_topic <> response ->
  exists disclaimer,
    disclaimer <> ""
    /\ sanitize_response response safety_topic = response +:+ disclaimer
    /\ sanitize_response (sanitize_response response safety_topic) safety_topic
       = response +:+ disclaimer +:+ disclaimer.
Proof.
  unfold sanitize_response.
  destruct (cited_standard safety_topic) as [standard|].
  - intros _. eexists. split; [|split; [reflexivity|]].
    + discriminate.
    + now rewrite append_assoc.
  - destruct (existsb _ ["procedure"; "step"; "do"]) eqn:Hany; [|congruence].
    intros _. eexists. split; [|split; [reflexivity|]].
    + discriminate.
    + apply existsb_exists in Hany as (word & Hin & Hword).
      assert (Hagain :
        existsb (fun word => str_in word
                   (lower (response +:+ nl +:+ nl +:+
                      "Always follow established procedures and safety protocols.")))
                ["procedure"; "step"; "do"] = true).
      { apply existsb_exists. exists word. split; [exact Hin|].
        rewrite lower_app. now apply str_in_app_l. }
      rewrite Hagain. now rewrite append_assoc.
Qed.

Lemma sanitize_twice_duplicates_witness :
  sanitize_response "Turn off the main breaker" (Some "lockout_tagout")
    <> "Turn off the main breaker"
  /\ exists disclaimer,
       disclaimer <> ""
       /\ sanitize_response "Turn off the main breaker" (Some "lockout_tagout")
          = "Turn off the main breaker" +:+ disclaimer
       /\ sanitize_response
            (sanitize_response "Turn off the main breaker" (Some "lockout_tagout"))
            (Some "lockout_tagout")
          = "Turn off the main breaker" +:+ disclaimer +:+ disclaimer.
Proof.
  split.
  - vm_compute. intros H. discriminate H.
  - apply (sanitize_twice_duplicates "Turn off the main breaker"
             (Some "lockout_tagout")).
    vm_compute. intros H. discriminate H.
Defined.

End SafetyExtras.

(* ===================================================================== *)
(** * More on the intent classifier *)
(* ===================================================================== *)

Module ClassifierExtras.
Import Py PyFacts TextFacts Notions FloatFacts IntentClassifier ClassifierProofs.

Lemma isdigit_lower_char (c : ascii) : isdigit (lower_char c) = isdigit c.
Proof. destruct c as [[] [] [] [] [] [] [] []]; reflexivity. Qed.

Lemma any_digit_lower (s : string) :
  any_char isdigit (lower s) = any_char isdigit s.
Proof.
  induction s as [|c s IH]; [reflexivity|].
  simpl. now rewrite isdigit_lower_char, IH.
Qed.

(** What a yielded value is: a token of the query, not the first one,
    with a digit. *)
Lemma yields_token (trigger query value : string) :
  yields trigger query value ->
  (exists i, split query !! S i = Some value)
  /\ any_char isdigit value = true.
Proof.
  intros (_ & i & (word & next_word & _ & Hnext & _ & Hdigit) & Hvalue & _).
  rewrite Nat.add_1_r in Hnext, Hvalue.
  split; [now exists i | congruence].
Qed.

Lemma extract_empty_if (query : string) :
  (forall trigger value, ~ yields trigger query value) ->
  _extract_entities query = Ok ∅.
Proof.
  intros Hnone.
  destruct (extract_entities_last query)
    as (found & Hrun & [(pre & t & post & v & _ & Hy & _) | [_ ->]]).
  - exfalso. exact (Hnone t v Hy).
  - exact Hrun.
Qed.

Lemma first_maximum_ge {K : Type} (c : K -> nat) (items : list K) (r : K) :
  first_maximum c items r -> forall i, In i items -> c i <= c r.
Proof.
  intros (pre & post & -> & Hpre & Hpost) i Hi.
  rewrite List.Forall_forall in Hpre, Hpost.
  apply in_app_or in Hi as [Hi | [<- | Hi]];
    [apply Hpre in Hi; lia | lia | now apply Hpost].
Qed.

Lemma total_le_five_best (query : string) (best : ManufacturingIntent) :
  first_maximum (raw_score query) ManufacturingIntent_members best ->
  total_score query <= 5 * raw_score query best.
Proof.
  intros Hfirst.
  assert (H : forall i, raw_score query i <= raw_score query best).
  { intros i. apply (first_maximum_ge _ _ _ Hfirst).
    destruct i; simpl; tauto. }
  unfold total_score. cbn [ManufacturingIntent_members map list_sum fold_right].
  change (raw_score query WORK_ORDER) with 0.
  change (raw_score query PART_SEARCH) with 0.
  change (raw_score query TRAINING) with 0.
  change (raw_score query UNKNOWN) with 0.
  pose proof (H SOP_LOOKUP). pose proof (H PRODUCTION_STATUS).
  pose proof (H MAINTENANCE_REQUEST). pose proof (H QUALITY_CHECK).
  pose proof (H SAFETY_QUERY). lia.
Qed.

Lemma hits_zero (keywords : list string) (text : string) :
  hits keywords text = 0 ->
  forallb (fun k => negb (str_in k text)) keywords = true.
Proof.
  induction keywords as [|k keywords IH]; [reflexivity|].
  rewrite hits_cons. cbn [forallb]. destruct (str_in k text); [discriminate|].
  intros H. now rewrite IH.
Qed.

Lemma no_score_no_trigger (query : string) :
  total_score query = 0 -> matches_no_trigger query = true.
Proof.
  intros Htotal.
  assert (H : forall i, raw_score query i = 0).
  { intros i. pose proof (raw_score_le_total query i). lia. }
  pose proof (hits_zero _ _ (H SOP_LOOKUP)) as H1.
  pose proof (hits_zero _ _ (H PRODUCTION_STATUS)) as H2.
  pose proof (hits_zero _ _ (H MAINTENANCE_REQUEST)) as H3.
  pose proof (hits_zero _ _ (H QUALITY_CHECK)) as H4.
  pose proof (hits_zero _ _ (H SAFETY_QUERY)) as H5.
  unfold matches_no_trigger, intent_patterns.
  cbn [forallb] in *. now rewrite H1, H2, H3, H4, H5.
Qed.

(** Above one fifth: the quotient of the greatest of five counts by
    their sum. *)
Lemma quotient_ge_fifth (b t : nat) :
  1 <= b <= 9 -> 1 <= t <= 43 -> t <= 5 * b ->
  PrimFloat.leb (PrimFloat.div 1%float 5%float) (PrimFloat.div (F b) (F t))
  = true.
Proof.
  intros Hb Ht Hbt.
  upto b 10; upto t 44; first [exfalso; lia | compute_case].
Qed.

Lemma quotient_eqb_one (b t : nat) :
  b <= 9 -> 1 <= t <= 43 ->
  PrimFloat.eqb (PrimFloat.div (F b) (F t)) 1%float = (b =? t).
Proof.
  intros Hb Ht.
  upto b 10; upto t 44; first [exfalso; lia | compute_case].
Qed.

Lemma quotient_self (t : nat) :
  1 <= t <= 43 -> PrimFloat.div (F t) (F t) = 1%float.
Proof. intros Ht. upto t 44; first [exfalso; lia | compute_case]. Qed.

Lemma hits_mono (keywords : list string) (t1 t2 : string) :
  (forall k, str_in k t1 = true -> str_in k t2 = true) ->
  hits keywords t1 <= hits keywords t2.
Proof.
  intros Hsub. induction keywords as [|k keywords IH]; [reflexivity|].
  rewrite !hits_cons. specialize (Hsub k).
  destruct (str_in k t1); [rewrite Hsub by reflexivity; lia|].
  destruct (str_in k t2); lia.
Qed.

(** X7. [classify] does not see letter case: a query and its
    lower-casing get the same result, entities included. *)
Theorem classify_case_blind (query : string) :
  classify (lower query) = classify query.
Proof. unfold classify. now rewrite lower_idem. Qed.

(** X8. The only entity [classify] ever returns is "machine_id" (never
    "part_number"), and its value is a token of the lower-cased query
    other than the first: not empty, without white space, in lower case,
    and with a digit. *)
Theorem machine_id_is_token (query : string) :
  exists r,
    classify query = Ok r
    /\ forall kind value,
         entities r !! kind = Some value ->
         kind = "machine_id"
         /\ (exists i, split (lower query) !! S i = Some value)
         /\ any_char isdigit value = true
         /\ value <> ""
         /\ any_char isspace value = false
         /\ lower value = value.
Proof.
  destruct (classify_run query) as (best & found & _ & Hfound & Hrun).
  cbv zeta in Hrun. eexists. split; [exact Hrun|]. cbn [entities].
  intros kind value Hlookup.
  destruct (extract_entities_last (lower query))
    as (found' & Hrun' & [(pre & t & post & v & _ & Hy & _ & Hf) | [_ Hf]]);
    rewrite Hfound in Hrun'; injection Hrun' as ->; subst found'.
  2: { rewrite lookup_empty in Hlookup. discriminate. }
  apply lookup_singleton_Some in Hlookup as [<- <-].
  destruct (yields_token _ _ _ Hy) as [[i Hi] Hdigit].
  split; [reflexivity|]. split; [now exists i|]. split; [exact Hdigit|].
  pose proof (Forall_lookup_1 _ _ _ _ (split_tokens (lower query)) Hi)
    as [Hne Hsp].
  split; [exact Hne|]. split; [exact Hsp|].
  apply lower_fixed.
  exact (Forall_lookup_1 _ _ _ _
           (split_none _ _ (lower_all_fixed query)) Hi).
Qed.

Lemma machine_id_is_token_witness :
  exists r,
    classify "Show me the changeover procedure for Press 12B" = Ok r
    /\ entities r !! "machine_id" = Some "12b"
    /\ any_char isdigit "12b" = true
    /\ lower "12b" = "12b".
Proof.
  destruct (machine_id_is_token "Show me the changeover procedure for Press 12B")
    as (r & Hr & Hall).
  exists r. split; [exact Hr|].
  assert (Hl : entities r !! "machine_id" = Some "12b").
  { assert (Hrun : exists c e q,
        classify "Show me the changeover procedure for Press 12B"
        = Ok {| intent := SOP_LOOKUP; confidence := c;
                entities := {["machine_id" := "12b"]};
                clarification_needed := e; clarification_question := q |})
      by (do 3 eexists; vm_compute; reflexivity).
    destruct Hrun as (c & e & q & Hrun). rewrite Hrun in Hr.
    injection Hr as <-. reflexivity. }
  split; [exact Hl|].
  destruct (Hall "machine_id" "12b" Hl) as (_ & _ & Hd & _ & _ & Hlow).
  split; [exact Hd | exact Hlow].
Defined.

(** X9. A query without any digit yields no entity, and so [classify]
    always asks for clarification on it, whatever its confidence. *)
Theorem no_digit_no_entity (query : string) :
  any_char isdigit query = false ->
  _extract_entities query = Ok ∅
  /\ exists r,
       classify query = Ok r
       /\ entities r = ∅
       /\ clarification_needed r = true.
Proof.
  intros Hnone.
  assert (Hsilent : forall q, any_char isdigit q = false ->
                              _extract_entities q = Ok ∅).
  { intros q Hq. apply extract_empty_if. intros t v Hy.
    destruct (yields_token _ _ _ Hy) as [[i Hi] Hdigit].
    pose proof (Forall_lookup_1 _ _ _ _ (split_none isdigit q Hq) Hi) as Hv.
    simpl in Hv. congruence. }
  split; [now apply Hsilent|].
  destruct (classify_run query) as (best & found & _ & Hfound & Hrun).
  cbv zeta in Hrun.
  rewrite Hsilent in Hfound by (now rewrite any_digit_lower).
  injection Hfound as <-.
  eexists. split; [exact Hrun|]. cbn [entities clarification_needed].
  split; [reflexivity|]. apply orb_true_r.
Qed.

Lemma no_digit_no_entity_witness :
  any_char isdigit "show the setup procedure for the press" = false
  /\ _extract_entities "show the setup procedure for the press" = Ok ∅
  /\ exists r,
       classify "show the setup procedure for the press" = Ok r
       /\ entities r = ∅
       /\ clarification_needed r = true.
Proof.
  split; [reflexivity|].
  apply (no_digit_no_entity "show the setup procedure for the press").
  reflexivity.
Defined.

(** X10. Nothing is extracted from a query of fewer than two tokens (a
    trigger in the last token has no token after it, and the scan never
    indexes past the end), nor from a query in which no trigger word of
    the "machine_id" kind occurs. *)
Theorem nothing_extracted (query : string) :
  length (split query) < 2
  \/ Forall (fun k => str_in k query = false) machine_triggers ->
  _extract_entities query = Ok ∅.
Proof.
  intros Hcase.
  destruct (extract_entities_last query)
    as (found & Hrun & [(pre & t & post & v & Htr & Hy & _) | [_ ->]]);
    [exfalso | exact Hrun].
  destruct Hcase as [Hshort | Habsent].
  - destruct (yields_token _ _ _ Hy) as [[i Hi] _].
    apply lookup_lt_Some in Hi. lia.
  - rewrite List.Forall_forall in Habsent.
    destruct Hy as [Hin _]. rewrite Habsent in Hin; [discriminate|].
    rewrite Htr. apply in_or_app. right. now left.
Qed.

Lemma nothing_extracted_witness :
  length (split "  press12 ") < 2
  /\ _extract_entities "  press12 " = Ok ∅.
Proof.
  assert (H : length (split "  press12 ") < 2) by (vm_compute; lia).
  split; [exact H|].
  apply (nothing_extracted "  press12 "). left. exact H.
Defined.

(** X11. Clarification is needed exactly when the selected intent holds
    less than half of all keyword hits, or no entity was extracted; and
    the flag can be recomputed from the returned confidence and entities,
    the final [min] having changed nothing. *)
Theorem clarification_needed_iff (query : string) :
  exists r,
    classify query = Ok r
    /\ (clarification_needed r = true
        <-> 2 * raw_score query (intent r) < Nat.max (total_score query) 1
            \/ entities r = ∅)
    /\ clarification_needed r
       = PrimFloat.ltb (confidence r) 0.5%float || (size (entities r) =? 0).
Proof.
  destruct (classify_run query) as (best & found & _ & _ & Hrun).
  cbv zeta in Hrun. eexists. split; [exact Hrun|].
  cbn [intent entities clarification_needed confidence].
  pose proof (raw_score_le query best) as Hb.
  pose proof (total_score_le query) as Ht.
  split.
  - now rewrite orb_true_iff, Nat.ltb_lt, Nat.eqb_eq, map_size_empty_iff.
  - now rewrite quotient_lt_half by lia.
Qed.

(** X12. The confidence is 0 when no keyword of any pattern occurs in
    the query; otherwise the selected intent has at least one hit and, as
    the greatest of five scores, at least a fifth of all hits: the
    confidence is never between 0 and 1/5. *)
Theorem confidence_zero_or_fifth (query : string) :
  exists r,
    classify query = Ok r
    /\ ((matches_no_trigger query = true /\ confidence r = 0%float)
        \/ (matches_no_trigger query = false
            /\ 1 <= raw_score query (intent r)
            /\ total_score query <= 5 * raw_score query (intent r)
            /\ PrimFloat.leb (PrimFloat.div 1%float 5%float) (confidence r)
               = true)).
Proof.
  destruct (classify_run query) as (best & found & Hfirst & _ & Hrun).
  cbv zeta in Hrun. eexists. split; [exact Hrun|].
  cbn [intent confidence].
  pose proof (raw_score_le query best) as Hb.
  pose proof (total_score_le query) as Ht.
  pose proof (total_le_five_best query best Hfirst) as Hfive.
  destruct (matches_no_trigger query) eqn:Hm.
  - left. split; [reflexivity|].
    assert (Htotal : total_score query = 0).
    { unfold total_score.
      cbn [ManufacturingIntent_members map list_sum fold_right].
      now rewrite !(no_trigger_no_score query _ Hm). }
    rewrite (no_trigger_no_score query best Hm), Htotal. reflexivity.
  - right. split; [reflexivity|].
    assert (Htotal : total_score query <> 0).
    { intros H0. apply no_score_no_trigger in H0. congruence. }
    split; [lia|]. split; [exact Hfive|].
    apply quotient_ge_fifth; lia.
Qed.

(** X13. The confidence is 1 exactly when at least one keyword occurs
    and every keyword hit belongs to the selected intent. *)
Theorem confidence_one_iff (query : string) :
  exists r,
    classify query = Ok r
    /\ (confidence r = 1%float
        <-> 1 <= total_score query
            /\ raw_score query (intent r) = total_score query).
Proof.
  destruct (classify_run query) as (best & found & _ & _ & Hrun).
  cbv zeta in Hrun. eexists. split; [exact Hrun|].
  cbn [intent confidence].
  pose proof (raw_score_le query best) as Hb.
  pose proof (total_score_le query) as Ht.
  pose proof (raw_score_le_total query best) as Hbt.
  split.
  - intros Hone.
    assert (Heq : PrimFloat.eqb
                    (PrimFloat.div (F (raw_score query best))
                                   (F (Nat.max (total_score query) 1)))
                    1%float = true)
      by (rewrite Hone; reflexivity).
    rewrite quotient_eqb_one in Heq by lia.
    apply Nat.eqb_eq in Heq. lia.
  - intros [Hpos Heq]. rewrite Heq.
    replace (Nat.max (total_score query) 1) with (total_score query) by lia.
    apply quotient_self. lia.
Qed.

(** X14. More text never lowers a raw score: every intent scores on a
    query at most what it scores on a text that contains the query. *)
Theorem raw_score_context (a query b : string) (i : ManufacturingIntent) :
  raw_score query i <= raw_score (a +:+ query +:+ b) i.
Proof.
  unfold raw_score. destruct (dict_get intent_patterns i); [|lia].
  apply hits_mono. intros k Hk.
  rewrite !lower_app. now apply str_in_app_r, str_in_app_l.
Qed.

(** X15. Keywords are matched as substrings and each counts on its own,
    so a query that mentions "safety" scores at least 2 for SAFETY_QUERY:
    the keyword "safe" is found inside it. *)
Theorem safety_counts_twice (query : string) :
  str_in "safety" (lower query) = true ->
  2 <= raw_score query SAFETY_QUERY.
Proof.
  intros Hsafety.
  assert (Hsafe : str_in "safe" (lower query) = true).
  { apply str_in_true in Hsafety as (a & b & Hq).
    apply str_in_true. exists a, ("ty" +:+ b). rewrite Hq. reflexivity. }
  change (raw_score query SAFETY_QUERY)
    with (hits ["safety"; "safe"; "guard"; "danger"; "warning"; "hazard";
                "ppe"; "personal protective"] (lower query)).
  rewrite !hits_cons, Hsafety, Hsafe. lia.
Qed.

Lemma safety_counts_twice_witness :
  str_in "safety" (lower "Where is the Safety data sheet?") = true
  /\ 2 <= raw_score "Where is the Safety data sheet?" SAFETY_QUERY.
Proof.
  split; [reflexivity|].
  apply (safety_counts_twice "Where is the Safety data sheet?"). reflexivity.
Defined.

End ClassifierExtras.
